(** * XRA-Assessment: the three scripts of the repository, embedded and verified

    - [Q1]  [ascii_draw.py]    the console rectangle drawer;
    - [Q2]  [db_access.py]     the employee table tool over a database driver;
    - [Q3]  [time_service.py]  the one-route HTTP service.

    Python integers are [Z], strings are [string], console and driver
    effects are threaded explicitly through the functions that perform
    them. *)

From Stdlib Require Import ZArith List String Ascii Bool Lia DecimalString.
Import ListNotations.

Set Warnings "-register-all".

Local Open Scope string_scope.
Local Open Scope Z_scope.

(** ** Pieces of the Python runtime used by the scripts *)

Module Py.

(** The line terminator written by [print]. *)
Definition nl : string := String "010"%char EmptyString.

(** [range(n)] for an integer [n]: empty when [n <= 0]. *)
Definition range (n : Z) : list Z := map Z.of_nat (seq 0 (Z.to_nat n)).

(** [''.join(l)]. *)
Definition joined (l : list string) : string := fold_right append EmptyString l.

Definition is_digit (c : ascii) : bool :=
  let n := nat_of_ascii c in (48 <=? n)%nat && (n <=? 57)%nat.

Definition digit_val (c : ascii) : Z := Z.of_nat (nat_of_ascii c) - 48.

(** The ASCII characters that [str.strip] and [int] treat as blank. *)
Definition is_space (c : ascii) : bool :=
  let n := nat_of_ascii c in
  ((9 <=? n)%nat && (n <=? 13)%nat) || ((28 <=? n)%nat && (n <=? 32)%nat).

Fixpoint lstrip (s : string) : string :=
  match s with
  | String c r => if is_space c then lstrip r else s
  | EmptyString => EmptyString
  end.

Fixpoint string_rev (s : string) : string :=
  match s with
  | EmptyString => EmptyString
  | String c r => string_rev r ++ String c EmptyString
  end.

Definition rstrip (s : string) : string := string_rev (lstrip (string_rev s)).

Definition strip (s : string) : string := rstrip (lstrip s).

(** The digits of a decimal literal: digits, with single underscores allowed
    between two digits.  [prev] tells whether the previous character was a
    digit. *)
Fixpoint int_digits (s : string) (acc : Z) (prev : bool) : option Z :=
  match s with
  | EmptyString => if prev then Some acc else None
  | String c r =>
      if is_digit c then int_digits r (10 * acc + digit_val c) true
      else if Ascii.eqb c "_" then (if prev then int_digits r acc false else None)
      else None
  end.

(** The blanks that [int] skips around an ASCII literal: the space and the
    characters 9 to 13; the separators 28 to 31, which [str.strip] removes,
    are not among them. *)
Definition is_int_space (c : ascii) : bool :=
  let n := nat_of_ascii c in
  ((9 <=? n)%nat && (n <=? 13)%nat) || (n =? 32)%nat.

Fixpoint lstrip_int (s : string) : string :=
  match s with
  | String c r => if is_int_space c then lstrip_int r else s
  | EmptyString => EmptyString
  end.

Definition strip_int (s : string) : string :=
  string_rev (lstrip_int (string_rev (lstrip_int s))).

Fixpoint count_digits (s : string) : nat :=
  match s with
  | EmptyString => O
  | String c r => if is_digit c then S (count_digits r) else count_digits r
  end.

(** [sys.get_int_max_str_digits()], at its default. *)
Definition int_max_str_digits : nat := 4300.

(** The value of the digits [r] of a literal, refused when it has more
    digits than [int_max_str_digits]. *)
Definition int_literal (r : string) : option Z :=
  if (count_digits r <=? int_max_str_digits)%nat then int_digits r 0 false else None.

(** [int(s)] on ASCII text; [None] stands for [ValueError]. *)
Definition int (s : string) : option Z :=
  match strip_int s with
  | String "-" r => option_map Z.opp (int_literal r)
  | String "+" r => int_literal r
  | r => int_literal r
  end.

(** [str.upper] on ASCII letters. *)
Definition upper_char (c : ascii) : ascii :=
  let n := nat_of_ascii c in
  if (97 <=? n)%nat && (n <=? 122)%nat then ascii_of_nat (n - 32) else c.

Fixpoint upper (s : string) : string :=
  match s with
  | EmptyString => EmptyString
  | String c r => String (upper_char c) (upper r)
  end.

(** [x in l] for a list of strings. *)
Definition mem (x : string) (l : list string) : bool := existsb (String.eqb x) l.

(** Statements that read and write a state of type [St] and may raise an
    exception of type [Ex]. *)
Section StateExn.
Variables St Ex : Type.

Inductive result (A : Type) : Type :=
| Ok (a : A)
| Raise (e : Ex).

Definition M (A : Type) : Type := St -> result A * St.

Definition ret {A} (a : A) : M A := fun s => (Ok A a, s).

Definition raise {A} (e : Ex) : M A := fun s => (Raise A e, s).

Definition bind {A B} (m : M A) (k : A -> M B) : M B :=
  fun s => match m s with
           | (Ok _ a, s') => k a s'
           | (Raise _ e, s') => (Raise B e, s')
           end.

(** [try: body  except Ex as e: handler(e)]. *)
Definition try_except {A} (body : M A) (handler : Ex -> M A) : M A :=
  fun s => match body s with
           | (Ok _ a, s') => (Ok A a, s')
           | (Raise _ e, s') => handler e s'
           end.

Definition modify (f : St -> St) : M unit := fun s => (Ok unit tt, f s).

End StateExn.

Arguments Ok {Ex A} a.
Arguments Raise {Ex A} e.
Arguments ret {St Ex A} a.
Arguments raise {St Ex A} e.
Arguments bind {St Ex A B} m k.
Arguments try_except {St Ex A} body handler.
Arguments modify {St Ex} f.

End Py.

Notation "x <- m ;; k" := (Py.bind m (fun x => k))
  (at level 61, m at next level, right associativity).
Notation "m ;;; k" := (Py.bind m (fun _ => k))
  (at level 61, right associativity).

(** ** Q1: [ascii_draw.py] *)

Module Q1.
Import Py.

Inductive exn := ValueError | EOFError.

(** Result of a run: what was written to standard output, the lines of
    standard input left unread, and how the call ended. *)
Inductive outcome :=
| Returned (out : string) (rest : list string)
| Raised (e : exn) (out : string).

(** [print(s, end=e)] appends to the text written so far. *)
Definition print (s end_ : string) (out : string) : string := out ++ s ++ end_.

Definition msg_size : string := "!!Error , Width and height must be at greater than 2.".
Definition prompt_width : string := "enter the width you want to draw ".
Definition prompt_height : string := "enter the height you want to draw ".
Definition prompt_char : string := "choose any character you would like to use to draw ".
Definition msg_single : string := "Please enter a single character.".
Definition msg_invalid : string := " Invalid input. Please enter numeric values for width and height.".

(** The border test of the rendering loop. *)
Definition border (width height j i : Z) : bool :=
  (j =? 0) || (j =? height - 1) || (i =? 0) || (i =? width - 1).

(** Body of the inner [for i in range(width)] loop. *)
Definition render_cell (width height : Z) (char : string) (j : Z) (out : string) (i : Z) : string :=
  if border width height j i then print char EmptyString out
  else print " " EmptyString out.

(** Body of the outer [for j in range(height)] loop: the inner loop, then
    [print()]. *)
Definition render_row (width height : Z) (char : string) (out : string) (j : Z) : string :=
  print EmptyString nl (fold_left (render_cell width height char j) (range width) out).

(** The rendering loop. *)
Definition render (width height : Z) (char : string) (out : string) : string :=
  fold_left (render_row width height char) (range height) out.

(** What the [while True] loop hands to the rendering loop. *)
Inductive validated :=
| Valid (width height : Z) (char : string) (out : string) (rest : list string)
| Invalid (e : exn) (out : string).

(** The [while True] validation loop.  Every iteration reads at least one
    line, so the loop is a recursion on the lines of standard input; only
    [ValueError] is caught, the [EOFError] of an exhausted input escapes.
    The [char] argument of the function is overwritten before it is read. *)
Fixpoint validate (lines : list string) (width height : Z) (out : string) {struct lines} : validated :=
  if (width <? 3) || (height <? 3) then
    let out := print prompt_width EmptyString (print msg_size nl out) in
    match lines with
    | [] => Invalid EOFError out
    | l1 :: rest =>
        match int l1 with
        | None => validate rest width height (print msg_invalid nl out)
        | Some width' =>
            let out := print prompt_height EmptyString out in
            match rest with
            | [] => Invalid EOFError out
            | l2 :: rest2 =>
                match int l2 with
                | None => validate rest2 width' height (print msg_invalid nl out)
                | Some height' => validate rest2 width' height' out
                end
            end
        end
    end
  else
    let out := print prompt_char EmptyString out in
    match lines with
    | [] => Invalid EOFError out
    | char :: rest =>
        if negb (String.length char =? 1)%nat
        then validate rest width height (print msg_single nl out)
        else Valid width height char out rest
    end.

Definition draw_rectangle (lines : list string) (width height : Z) (char : string) : outcome :=
  match validate lines width height EmptyString with
  | Valid w h c out rest => Returned (render w h c out) rest
  | Invalid e out => Raised e out
  end.

(** The call at the bottom of the script. *)
Definition main (lines : list string) : outcome := draw_rectangle lines 0 0 EmptyString.

(** A line of the hollow rectangle, cell by cell. *)
Definition cell (width height : Z) (c : ascii) (j i : Z) : ascii :=
  if border width height j i then c else " "%char.

Definition rect_line (width height : Z) (c : ascii) (j : Z) : string :=
  string_of_list_ascii (map (cell width height c j) (range width)).

(** The rendering loop prints [lines], one per row, each followed by a line
    break, after what was printed before. *)
Definition prints_lines (width height : Z) (char : string) (out : string) (lines : list string) : Prop :=
  render width height char out = out ++ joined (map (fun l => l ++ nl) lines).

(** The hollow rectangle, read with [char] on the border and a space
    elsewhere. *)
Definition hollow (width height : Z) (char : string) (lines : list string) : Prop :=
  List.length lines = Z.to_nat height /\
  forall j, 0 <= j < height ->
    exists l, nth_error lines (Z.to_nat j) = Some l /\
      String.length l = Z.to_nat width /\
      forall i, 0 <= i < width ->
        String.get (Z.to_nat i) l =
          if border width height j i then String.get 0 char else Some " "%char.

(** The hollow rectangle, read with [char] on the border and nowhere
    else. *)
Definition hollow_iff (width height : Z) (char : string) (lines : list string) : Prop :=
  List.length lines = Z.to_nat height /\
  forall j, 0 <= j < height ->
    exists l, nth_error lines (Z.to_nat j) = Some l /\
      String.length l = Z.to_nat width /\
      forall i, 0 <= i < width ->
        (String.get (Z.to_nat i) l = String.get 0 char <-> border width height j i = true) /\
        (border width height j i = false -> String.get (Z.to_nat i) l = Some " "%char).

Definition validated_output (v : validated) : string :=
  match v with
  | Valid _ _ _ out _ => out
  | Invalid _ out => out
  end.

(** What a run wrote to standard output, however it ended. *)
Definition output_of (o : outcome) : string :=
  match o with
  | Returned out _ => out
  | Raised _ out => out
  end.

End Q1.

(** ** Q2: [db_access.py] *)

Module Q2.
Import Py.

Record employee := { emp_id : Z; emp_name : string; emp_department : string }.

(** The statements the script sends. *)
Inductive statement :=
| CreateTable
| Insert (name department : string)
| SelectAll.

(** The subclasses of [psycopg2.Error] the driver raises; [except Error]
    catches each of them. *)
Inductive Error :=
| InterfaceError (msg : string)
| OperationalError (msg : string)
| DatabaseError (msg : string).

Definition error_text (e : Error) : string :=
  match e with
  | InterfaceError m => m
  | OperationalError m => m
  | DatabaseError m => m
  end.

(** What the server does with the next round trip: answer, reject the
    statement, or drop the connection. *)
Inductive fault :=
| NoFault
| ServerError (msg : string)
| ConnectionLost (msg : string).

(** The transaction block of the session.  [Open rows] holds the rows the
    session sees, not yet committed. *)
Inductive txn :=
| NoTxn
| Open (rows : option (list employee))
| Aborted.

Inductive call :=
| CallCursor
| CallExecute (s : statement)
| CallCommit
| CallRollback
| CallCursorClose.

(** The connection object with the database behind it and the console.
    [employees] is the committed table ([None] before it is created),
    [serial] the next value of the [id] sequence (sequences do not roll
    back), [faults] what the server will do on the coming round trips and
    [calls] the driver calls made so far. *)
Record world := {
  employees : option (list employee);
  serial : Z;
  txn_state : txn;
  closed : bool;
  faults : list fault;
  calls : list call;
  stdout : string
}.

Definition DB := M world Error.

Definition print (s : string) : DB unit :=
  modify (fun w => {| employees := employees w; serial := serial w; txn_state := txn_state w;
                      closed := closed w; faults := faults w; calls := calls w;
                      stdout := stdout w ++ s ++ nl |}).

Definition log (c : call) (w : world) : world :=
  {| employees := employees w; serial := serial w; txn_state := txn_state w;
     closed := closed w; faults := faults w; calls := (calls w ++ [c])%list;
     stdout := stdout w |}.

Definition next_fault (w : world) : fault * world :=
  match faults w with
  | [] => (NoFault, w)
  | f :: fs => (f, {| employees := employees w; serial := serial w; txn_state := txn_state w;
                      closed := closed w; faults := fs; calls := calls w;
                      stdout := stdout w |})
  end.

Definition set_txn (t : txn) (w : world) : world :=
  {| employees := employees w; serial := serial w; txn_state := t;
     closed := closed w; faults := faults w; calls := calls w; stdout := stdout w |}.

(** The connection drops: the session is gone, and with it its
    transaction block. *)
Definition drop (w : world) : world :=
  {| employees := employees w; serial := serial w; txn_state := NoTxn;
     closed := true; faults := faults w; calls := calls w; stdout := stdout w |}.

Definition already_closed : Error := InterfaceError "connection already closed".

(** The rows the session sees: those of its open transaction, else the
    committed ones. *)
Definition view (w : world) : option (list employee) :=
  match txn_state w with
  | Open rows => rows
  | _ => employees w
  end.

(** [connection.cursor()]. *)
Definition cursor : DB unit :=
  fun w => let w := log CallCursor w in
           if closed w then (Raise already_closed, w) else (Ok tt, w).

(** [cursor.close()] of a client-side cursor: no round trip. *)
Definition cursor_close : DB unit := modify (log CallCursorClose).

(** [cursor.execute(stmt)].  The first statement after a commit or rollback
    opens a transaction block; a rejected statement aborts the block. *)
Definition execute (s : statement) : DB unit :=
  fun w =>
    let w := log (CallExecute s) w in
    if closed w then (Raise already_closed, w) else
    match next_fault w with
    | (ConnectionLost m, w) => (Raise (OperationalError m), drop w)
    | (ServerError m, w) => (Raise (DatabaseError m), set_txn Aborted w)
    | (NoFault, w) =>
        match txn_state w with
        | Aborted => (Raise (DatabaseError "current transaction is aborted"), w)
        | _ =>
            match s, view w with
            | CreateTable, None => (Ok tt, set_txn (Open (Some [])) w)
            | CreateTable, Some rows => (Ok tt, set_txn (Open (Some rows)) w)
            | Insert _ _, None =>
                (Raise (DatabaseError "relation employees does not exist"), set_txn Aborted w)
            | Insert n d, Some rows =>
                let row := {| emp_id := serial w; emp_name := n; emp_department := d |} in
                (Ok tt, {| employees := employees w; serial := serial w + 1;
                           txn_state := Open (Some (rows ++ [row])%list);
                           closed := closed w; faults := faults w; calls := calls w;
                           stdout := stdout w |})
            | SelectAll, None =>
                (Raise (DatabaseError "relation employees does not exist"), set_txn Aborted w)
            | SelectAll, Some rows => (Ok tt, set_txn (Open (Some rows)) w)
            end
        end
    end.

(** [connection.commit()]: the rows of an open block become the committed
    table; committing an aborted block only ends it. *)
Definition commit : DB unit :=
  fun w =>
    let w := log CallCommit w in
    if closed w then (Raise already_closed, w) else
    match next_fault w with
    | (ConnectionLost m, w) => (Raise (OperationalError m), drop w)
    | (ServerError m, w) => (Raise (DatabaseError m), set_txn NoTxn w)
    | (NoFault, w) =>
        match txn_state w with
        | Open rows =>
            (Ok tt, {| employees := rows; serial := serial w; txn_state := NoTxn;
                       closed := closed w; faults := faults w; calls := calls w;
                       stdout := stdout w |})
        | _ => (Ok tt, set_txn NoTxn w)
        end
    end.

(** [connection.rollback()]. *)
Definition rollback : DB unit :=
  fun w =>
    let w := log CallRollback w in
    if closed w then (Raise already_closed, w) else
    match next_fault w with
    | (ConnectionLost m, w) => (Raise (OperationalError m), drop w)
    | (ServerError m, w) => (Raise (DatabaseError m), set_txn NoTxn w)
    | (NoFault, w) => (Ok tt, set_txn NoTxn w)
    end.

Definition create_table : DB bool :=
  try_except
    (cursor ;;;
     execute CreateTable ;;;
     commit ;;;
     cursor_close ;;;
     print ("Table 'employees' is ready." ++ nl) ;;;
     ret true)
    (fun e =>
       print ("ERROR: Failed to create table: " ++ error_text e) ;;;
       ret false).

Definition insert_employee (name department : string) : DB bool :=
  try_except
    (cursor ;;;
     execute (Insert name department) ;;;
     commit ;;;
     cursor_close ;;;
     print (" Employee '" ++ name ++ "' added successfully." ++ nl) ;;;
     ret true)
    (fun e =>
       print ("ERROR: Failed to insert employee: " ++ error_text e) ;;;
       rollback ;;;
       ret false).

(** The database operations of the [try] block of [insert_employee], in
    order. *)
Definition insert_attempt (name department : string) : DB unit :=
  cursor ;;; execute (Insert name department) ;;; commit.

(** The row an INSERT adds: its [id] is the next value of the sequence. *)
Definition new_row (name department : string) (w : world) : employee :=
  {| emp_id := serial w; emp_name := name; emp_department := department |}.

(** A session with the table created and empty, as [create_table] leaves
    it, and a server that answers every round trip. *)
Definition fresh_world : world :=
  {| employees := Some []; serial := 1; txn_state := NoTxn; closed := false;
     faults := []; calls := []; stdout := EmptyString |}.

(** Whether the INSERT statement itself goes through from [w]: the cursor
    is created and [execute] returns. *)
Definition insert_statement_succeeds (name department : string) (w : world) : bool :=
  match (cursor ;;; execute (Insert name department)) w with
  | (Ok _, _) => true
  | (Raise _, _) => false
  end.

(** *** Reading the table *)

(** Text written without a line break, as [input] writes its prompt. *)
Definition write (s : string) : DB unit :=
  modify (fun w => {| employees := employees w; serial := serial w; txn_state := txn_state w;
                      closed := closed w; faults := faults w; calls := calls w;
                      stdout := stdout w ++ s |}).

(** [s * n]. *)
Fixpoint repeat_string (s : string) (n : nat) : string :=
  match n with
  | O => EmptyString
  | S n' => s ++ repeat_string s n'
  end.

(** The format [{s:<{width}}]: [s] padded with spaces on the right, never
    cut. *)
Definition ljust (s : string) (width : nat) : string :=
  s ++ repeat_string " " (width - String.length s).

(** [str(n)] for an integer. *)
Definition str_int (n : Z) : string := NilZero.string_of_int (Z.to_int n).

(** [max] of a non-empty sequence of lengths. *)
Definition max_of (l : list nat) : nat := fold_right Nat.max 0%nat l.

(** [ORDER BY id]. *)
Fixpoint insert_by_id (r : employee) (l : list employee) : list employee :=
  match l with
  | [] => [r]
  | x :: l' => if emp_id r <=? emp_id x then r :: l else x :: insert_by_id r l'
  end.

Definition order_by_id (l : list employee) : list employee := fold_right insert_by_id [] l.

(** [cursor.fetchall()] after the SELECT: the rows the session sees, by
    [id]; no round trip. *)
Definition fetchall : DB (list employee) :=
  fun w => (Ok (match view w with
                | Some rows => order_by_id rows
                | None => []
                end), w).

Fixpoint for_each {A} (l : list A) (f : A -> DB unit) : DB unit :=
  match l with
  | [] => ret tt
  | x :: l' => f x ;;; for_each l' f
  end.

Definition id_width (rows : list employee) : nat :=
  Nat.max (String.length "ID") (max_of (map (fun row => String.length (str_int (emp_id row))) rows)).

Definition name_width (rows : list employee) : nat :=
  Nat.max (String.length "Name") (max_of (map (fun row => String.length (emp_name row)) rows)).

Definition dept_width (rows : list employee) : nat :=
  Nat.max (String.length "Department")
          (max_of (map (fun row => String.length (emp_department row)) rows)).

(** The three kinds of line of the table. *)
Definition table_rule (rows : list employee) : string :=
  repeat_string "=" (id_width rows + name_width rows + dept_width rows + 10).

Definition table_header (rows : list employee) : string :=
  ljust "ID" (id_width rows) ++ " | " ++ ljust "Name" (name_width rows) ++ " | "
    ++ ljust "Department" (dept_width rows).

Definition table_row (rows : list employee) (row : employee) : string :=
  ljust (str_int (emp_id row)) (id_width rows) ++ " | "
    ++ ljust (emp_name row) (name_width rows) ++ " | "
    ++ ljust (emp_department row) (dept_width rows).

(** The lines of the table, in the order they are printed. *)
Definition table_lines (rows : list employee) : list string :=
  List.app [table_rule rows; table_header rows; table_rule rows]
    (List.app (map (table_row rows) rows)
       [table_rule rows;
        "Total employees: " ++ str_int (Z.of_nat (List.length rows)) ++ nl]).

Definition display_all_employees : DB unit :=
  try_except
    (cursor ;;;
     execute SelectAll ;;;
     rows <- fetchall ;;
     cursor_close ;;;
     match rows with
     | [] => print "No employees found in the database."
     | _ :: _ =>
         print (table_rule rows) ;;;
         print (table_header rows) ;;;
         print (table_rule rows) ;;;
         for_each rows (fun row => print (table_row rows row)) ;;;
         print (table_rule rows) ;;;
         print ("Total employees: " ++ str_int (Z.of_nat (List.length rows)) ++ nl)
     end)
    (fun e => print ("ERROR: Failed to retrieve employees: " ++ error_text e)).

(** *** The process: environment, console input, exit *)

(** What can leave a function of the script: a driver error, [sys.exit],
    or the [EOFError] of [input]. *)
Inductive exc :=
| DbError (e : Error)
| SystemExit (code : Z)
| EOFError.

(** The connection object of the script. *)
Inductive connection := Connection.

(** The keyword arguments of [psycopg2.connect]. *)
Record connect_args := {
  arg_host : string; arg_port : string; arg_database : string;
  arg_user : string; arg_password : string
}.

(** The process: the database with the session and the console output,
    the environment variables, the lines of standard input, what
    [psycopg2.connect] will raise if anything, and the calls of
    [psycopg2.connect] made so far. *)
Record process := {
  session : world;
  os_environ : list (string * string);
  stdin : list string;
  connect_fault : option string;
  connections : list connect_args
}.

Definition Proc := M process exc.

Definition with_session (w : world) (p : process) : process :=
  {| session := w; os_environ := os_environ p; stdin := stdin p;
     connect_fault := connect_fault p; connections := connections p |}.

(** A statement of the database part, run by the process. *)
Definition lift {A} (m : DB A) : Proc A :=
  fun p => match m (session p) with
           | (Ok a, w) => (Ok a, with_session w p)
           | (Raise e, w) => (Raise (DbError e), with_session w p)
           end.

(** [try: body  except Error as e: handler(e)]: only driver errors are
    caught. *)
Definition except_Error {A} (body : Proc A) (handler : Error -> Proc A) : Proc A :=
  fun p => match body p with
           | (Raise (DbError e), p') => handler e p'
           | other => other
           end.

(** [try: body  finally: cleanup]. *)
Definition try_finally {A} (body : Proc A) (cleanup : Proc unit) : Proc A :=
  fun p => match body p with
           | (r, p') => match cleanup p' with
                        | (Ok _, p'') => (r, p'')
                        | (Raise e, p'') => (Raise e, p'')
                        end
           end.

Definition sys_exit {A} (code : Z) : Proc A := raise (SystemExit code).

Fixpoint getenv (name : string) (e : list (string * string)) : option string :=
  match e with
  | [] => None
  | (k, v) :: e' => if String.eqb name k then Some v else getenv name e'
  end.

(** [input(prompt)]. *)
Definition input (prompt : string) : Proc string :=
  lift (write prompt) ;;;
  (fun p => match stdin p with
            | [] => (Raise EOFError, p)
            | l :: rest => (Ok l, {| session := session p; os_environ := os_environ p;
                                     stdin := rest; connect_fault := connect_fault p;
                                     connections := connections p |})
            end).

Definition get_env_variable (var_name : string) : Proc string :=
  fun p => match getenv var_name (os_environ p) with
           | None =>
               (lift (print ("ERROR: Environment variable '" ++ var_name ++ "' is not set.")) ;;;
                lift (print "Please set all required environment variables:") ;;;
                lift (print "  - DB_HOST") ;;;
                lift (print "  - DB_PORT") ;;;
                lift (print "  - DB_NAME") ;;;
                lift (print "  - DB_USER") ;;;
                lift (print "  - DB_PASSWORD") ;;;
                sys_exit 1) p
           | Some value => (Ok value, p)
           end.

(** A new session: open, outside any transaction block. *)
Definition open_session (w : world) : world :=
  {| employees := employees w; serial := serial w; txn_state := NoTxn;
     closed := false; faults := faults w; calls := calls w; stdout := stdout w |}.

(** [psycopg2.connect(host=..., port=..., database=..., user=...,
    password=...)]. *)
Definition psycopg2_connect (args : connect_args) : Proc connection :=
  fun p =>
    let p' := {| session := session p; os_environ := os_environ p; stdin := stdin p;
                 connect_fault := connect_fault p;
                 connections := (connections p ++ [args])%list |} in
    match connect_fault p with
    | Some msg => (Raise (DbError (OperationalError msg)), p')
    | None => (Ok Connection, with_session (open_session (session p')) p')
    end.

Definition connect_to_database : Proc (option connection) :=
  except_Error
    (db_host <- get_env_variable "DB_HOST" ;;
     db_port <- get_env_variable "DB_PORT" ;;
     db_name <- get_env_variable "DB_NAME" ;;
     db_user <- get_env_variable "DB_USER" ;;
     db_password <- get_env_variable "DB_PASSWORD" ;;
     lift (print ("Connecting to database '" ++ db_name ++ "' on " ++ db_host ++ ":"
                    ++ db_port ++ "...")) ;;;
     c <- psycopg2_connect {| arg_host := db_host; arg_port := db_port;
                              arg_database := db_name; arg_user := db_user;
                              arg_password := db_password |} ;;
     lift (print (" Database connection established successfully." ++ nl)) ;;;
     ret (Some c))
    (fun e =>
       lift (print ("ERROR: Failed to connect to database: " ++ error_text e)) ;;;
       ret None).

Definition get_user_input : Proc (string * string) :=
  lift (print "Enter new employee details:") ;;;
  name <- input "Name: " ;;
  let name := strip name in
  department <- input "Department: " ;;
  let department := strip department in
  match name, department with
  | String _ _, String _ _ =>
      lift (print EmptyString) ;;;
      ret (name, department)
  | _, _ =>
      lift (print "ERROR: Name and Department cannot be empty.") ;;;
      sys_exit 1
  end.

(** [connection.close()]: the session ends, and an open transaction block
    with it; closing twice is allowed. *)
Definition close : DB unit := modify drop.

(** The [try] block of [main]. *)
Definition main_try : Proc unit :=
  created <- lift create_table ;;
  if negb created then sys_exit 1 else
  input_ <- get_user_input ;;
  let (name, department) := input_ in
  inserted <- lift (insert_employee name department) ;;
  if negb inserted then sys_exit 1 else
  lift (print "Current Employee Records:") ;;;
  lift (print (repeat_string "-" 60)) ;;;
  lift display_all_employees.

(** The [finally] block of [main]; a connection object is always true. *)
Definition main_finally : Proc unit :=
  lift close ;;;
  lift (print " Database connection closed.").

Definition main : Proc unit :=
  lift (print (repeat_string "=" 60)) ;;;
  lift (print "PostgreSQL Employee Database Manager") ;;;
  lift (print (repeat_string "=" 60)) ;;;
  lift (print EmptyString) ;;;
  c <- connect_to_database ;;
  match c with
  | None => sys_exit 1
  | Some Connection => try_finally main_try main_finally
  end.

(** The five variables [connect_to_database] asks for, in its order. *)
Definition required_variables : list string :=
  ["DB_HOST"; "DB_PORT"; "DB_NAME"; "DB_USER"; "DB_PASSWORD"].

(** The world with [out] as the text written so far. *)
Definition set_stdout (out : string) (w : world) : world :=
  {| employees := employees w; serial := serial w; txn_state := txn_state w;
     closed := closed w; faults := faults w; calls := calls w; stdout := out |}.

(** [w'] is [w] but for what was written to standard output. *)
Definition quiet (w w' : world) : Prop := set_stdout (stdout w) w' = w.

(** The rows of the committed table, none when there is no table. *)
Definition rows_of (t : option (list employee)) : list employee :=
  match t with
  | Some rows => rows
  | None => []
  end.

End Q2.

(** ** Q3: [time_service.py] *)

Module Q3.
Import Py.

(** *** [datetime] and [strftime] *)

Record datetime := {
  year : Z; month : Z; day : Z;
  hour : Z; minute : Z; second : Z; microsecond : Z
}.

Definition is_leap (y : Z) : bool :=
  (y mod 4 =? 0) && (negb (y mod 100 =? 0) || (y mod 400 =? 0)).

Definition days_in_month (y m : Z) : Z :=
  if m =? 2 then (if is_leap y then 29 else 28)
  else if (m =? 4) || (m =? 6) || (m =? 9) || (m =? 11) then 30
  else 31.

(** The ranges the [datetime] constructor enforces; every value of the type
    that Python can build satisfies them. *)
Definition valid_datetime (t : datetime) : bool :=
  (1 <=? year t) && (year t <=? 9999) &&
  (1 <=? month t) && (month t <=? 12) &&
  (1 <=? day t) && (day t <=? days_in_month (year t) (month t)) &&
  (0 <=? hour t) && (hour t <=? 23) &&
  (0 <=? minute t) && (minute t <=? 59) &&
  (0 <=? second t) && (second t <=? 59) &&
  (0 <=? microsecond t) && (microsecond t <=? 999999).

Definition digit_char (d : Z) : ascii := ascii_of_nat (48 + Z.to_nat d).

(** The [w] low decimal digits of [n], most significant first. *)
Fixpoint fixed_digits (w : nat) (n : Z) : string :=
  match w with
  | O => EmptyString
  | S w' => fixed_digits w' (n / 10) ++ String (digit_char (n mod 10)) EmptyString
  end.

(** The decimal digits of [n >= 0] without padding. *)
Definition decimal (n : Z) : string := NilZero.string_of_uint (N.to_uint (Z.to_N n)).

(** A number [n >= 0] in decimal, zero-padded on the left to [w] digits. *)
Definition zero_padded (w : nat) (n : Z) : string :=
  if n <? 10 ^ Z.of_nat w then fixed_digits w n else decimal n.

(** The directives of [strftime], as the C library of the platform formats
    them: [%Y] is the year in decimal without padding, so four digits from
    the year 1000 on and fewer before; [%m %d %H %M %S] are two digits
    each. *)
Definition directive (c : ascii) (t : datetime) : string :=
  if Ascii.eqb c "Y" then decimal (year t)
  else if Ascii.eqb c "m" then zero_padded 2 (month t)
  else if Ascii.eqb c "d" then zero_padded 2 (day t)
  else if Ascii.eqb c "H" then zero_padded 2 (hour t)
  else if Ascii.eqb c "M" then zero_padded 2 (minute t)
  else if Ascii.eqb c "S" then zero_padded 2 (second t)
  else if Ascii.eqb c "%" then "%"
  else String "%" (String c EmptyString).

Fixpoint strftime (t : datetime) (fmt : string) : string :=
  match fmt with
  | EmptyString => EmptyString
  | String c rest =>
      if Ascii.eqb c "%" then
        match rest with
        | String d rest' => directive d t ++ strftime t rest'
        | EmptyString => "%"
        end
      else String c (strftime t rest)
  end.

(** *** JSON values, responses, exceptions *)

Inductive json :=
| JNull
| JBool (b : bool)
| JNum (n : Z)
| JStr (s : string)
| JArr (items : list json)
| JObj (members : list (string * json)).

Inductive body :=
| Json (j : json)
| Html (title description : string)
| FileData (content : string)
| NoBody.

Record response := {
  status : Z;
  mimetype : string;
  data : body;
  allow : list string;
  location : option string
}.

(** Werkzeug's HTTP exceptions that the service can meet. *)
Inductive http_error :=
| NotFound
| MethodNotAllowed (valid_methods : list string)
| RequestRedirect (new_url : string)
| InternalServerError.

(** What a view or the framework may raise: an HTTP exception, or any other
    Python exception, given by its class name and message. *)
Inductive exn :=
| HTTPException (e : http_error)
| Exception (cls msg : string).

(** The response an HTTP exception renders to. *)
Definition get_response (e : http_error) : response :=
  match e with
  | NotFound =>
      {| status := 404; mimetype := "text/html";
         data := Html "404 Not Found"
           "The requested URL was not found on the server. If you entered the URL manually please check your spelling and try again.";
         allow := []; location := None |}
  | MethodNotAllowed valid =>
      {| status := 405; mimetype := "text/html";
         data := Html "405 Method Not Allowed" "The method is not allowed for the requested URL.";
         allow := valid; location := None |}
  | RequestRedirect url =>
      {| status := 308; mimetype := "text/html";
         data := Html "Redirecting..." url;
         allow := []; location := Some url |}
  | InternalServerError =>
      {| status := 500; mimetype := "text/html";
         data := Html "500 Internal Server Error"
           "The server encountered an internal error and was unable to complete your request. Either the server is overloaded or there is an error in the application.";
         allow := []; location := None |}
  end.

(** *** The world of the process: the system clock and the static folder *)

(** One read of the system clock. *)
Inductive reading :=
| Instant (t : datetime)
| ClockFailure (cls msg : string).

(** [clock k] is what the [k]-th read of the clock gives, [ticks] the number
    of reads made so far, [static_files] the files under the folder [static]
    next to the module. *)
Record file := { file_mimetype : string; file_content : string }.

Record world := {
  clock : nat -> reading;
  ticks : nat;
  static_files : list (string * file)
}.

Definition Web := M world exn.

(** The world after one more read of the clock. *)
Definition tick (w : world) : world :=
  {| clock := clock w; ticks := S (ticks w); static_files := static_files w |}.

(** [datetime.now()]. *)
Definition now : Web datetime :=
  fun w =>
    match clock w (ticks w) with
    | Instant t => (Ok t, tick w)
    | ClockFailure cls msg => (Raise (Exception cls msg), tick w)
    end.

(** [flask.jsonify] with positional arguments [args] and keyword arguments
    [kwargs]: one positional argument is serialised as it is, several as a
    JSON array, keywords as an object. *)
Definition jsonify (args : list json) (kwargs : list (string * json)) : Web response :=
  match args, kwargs with
  | _ :: _, _ :: _ =>
      raise (Exception "TypeError" "app.json.response() takes either args or kwargs, not both")
  | [], [] => ret {| status := 200; mimetype := "application/json"; data := Json JNull;
                     allow := []; location := None |}
  | [a], [] => ret {| status := 200; mimetype := "application/json"; data := Json a;
                      allow := []; location := None |}
  | _ :: _, [] => ret {| status := 200; mimetype := "application/json"; data := Json (JArr args);
                         allow := []; location := None |}
  | [], _ :: _ => ret {| status := 200; mimetype := "application/json"; data := Json (JObj kwargs);
                         allow := []; location := None |}
  end.

(** *** The view of the service *)

Definition get_current_time_date : Web response :=
  current_time <- now ;;
  let current_date := strftime current_time "%Y-%m-%d" in
  let current_time := strftime current_time "%H:%M:%S" in
  jsonify [JObj [("current_date", JStr current_date)];
           JObj [("current_time", JStr current_time)]] [].

(** *** The framework: URL rules *)

(** A rule is a sequence of literal text and converters; the only converter
    in use is [<path:name>], which takes the rest of the path. *)
Inductive part :=
| Lit (text : string)
| PathConv (name : string).

Record Rule := {
  pattern : list part;
  endpoint : string;
  methods : list string;
  provide_automatic_options : bool
}.

Definition View := list (string * string) -> Web response.

Record Flask := {
  url_map : list Rule;
  view_functions : list (string * View)
}.

Fixpoint lookup {A} (k : string) (d : list (string * A)) : option A :=
  match d with
  | [] => None
  | (k', v) :: d' => if String.eqb k k' then Some v else lookup k d'
  end.

(** [s.add(x)] on a set of strings kept as a list. *)
Definition set_add (x : string) (l : list string) : list string :=
  if mem x l then l else (l ++ [x])%list.

Definition set_union (l l' : list string) : list string := fold_left (fun acc x => set_add x acc) l' l.

(** [Flask.add_url_rule] followed by [Rule.__init__]: the methods are
    upper-cased, [OPTIONS] is added and answered by the framework unless the
    rule lists it, and [HEAD] is added to every rule that has [GET]. *)
Definition add_url_rule (pat : list part) (name : string) (view_func : View)
    (methods_arg : option (list string)) (app : Flask) : Flask :=
  let methods0 := match methods_arg with
                  | None => ["GET"]
                  | Some ms => fold_left (fun acc m => set_add (upper m) acc) ms []
                  end in
  let automatic := negb (mem "OPTIONS" methods0) in
  let methods1 := if automatic then set_add "OPTIONS" methods0 else methods0 in
  let methods2 := if mem "GET" methods1 && negb (mem "HEAD" methods1)
                  then set_add "HEAD" methods1 else methods1 in
  {| url_map := (url_map app ++ [ {| pattern := pat; endpoint := name; methods := methods2;
                                    provide_automatic_options := automatic |} ])%list;
     view_functions := (name, view_func) :: view_functions app |}.

(** [@app.route(rule, methods=...)] on a function called [name]. *)
Definition route (pat : list part) (methods_arg : option (list string))
    (name : string) (view_func : View) (app : Flask) : Flask :=
  add_url_rule pat name view_func methods_arg app.

(** [Flask.send_static_file]. *)
Definition send_static_file : View :=
  fun view_args w =>
    match lookup "filename" view_args with
    | None => (Raise (Exception "TypeError" "missing argument filename"), w)
    | Some filename =>
        match lookup filename (static_files w) with
        | Some f => (Ok {| status := 200; mimetype := file_mimetype f;
                           data := FileData (file_content f); allow := []; location := None |}, w)
        | None => (Raise (HTTPException NotFound), w)
        end
    end.

(** [Flask(__name__)]: the static folder defaults to [static], so the
    constructor registers the rule that serves it. *)
Definition Flask_init : Flask :=
  add_url_rule [Lit "/static/"; PathConv "filename"] "static" send_static_file None
    {| url_map := []; view_functions := [] |}.

(** The module-level application object, with the one decorated view. *)
Definition app : Flask :=
  route [Lit "/time"] (Some ["GET"]) "get_current_time_date"
    (fun _ => get_current_time_date) Flask_init.

(** The two rules that registration leaves in the URL map. *)
Definition static_rule : Rule :=
  {| pattern := [Lit "/static/"; PathConv "filename"]; endpoint := "static";
     methods := ["GET"; "OPTIONS"; "HEAD"]; provide_automatic_options := true |}.

Definition time_rule : Rule :=
  {| pattern := [Lit "/time"]; endpoint := "get_current_time_date";
     methods := ["GET"; "OPTIONS"; "HEAD"]; provide_automatic_options := true |}.

(** *** The framework: requests and URL matching *)

Record environ := { REQUEST_METHOD : string; PATH_INFO : string }.

Record request := { method : string; path : string }.

Fixpoint lstrip_slash (s : string) : string :=
  match s with
  | String c r => if Ascii.eqb c "/" then lstrip_slash r else s
  | EmptyString => EmptyString
  end.

(** The request object: the method upper-cased, the path with its leading
    slashes reduced to one. *)
Definition Request (e : environ) : request :=
  {| method := upper (REQUEST_METHOD e);
     path := String "/" (lstrip_slash (PATH_INFO e)) |}.

Fixpoint skip (n : nat) (s : string) : string :=
  match n, s with
  | S n', String _ r => skip n' r
  | _, _ => s
  end.

Fixpoint has_newline (s : string) : bool :=
  match s with
  | EmptyString => false
  | String c r => Ascii.eqb c "010" || has_newline r
  end.

(** Matching a path against a rule gives the converter values.  The path
    converter accepts what its pattern [[^/].*?] accepts: a non-empty rest
    that does not start with a slash and has no line break. *)
Fixpoint match_pattern (pat : list part) (p : string) : option (list (string * string)) :=
  match pat with
  | [] => match p with EmptyString => Some [] | _ => None end
  | Lit text :: pat' =>
      if String.prefix text p then match_pattern pat' (skip (String.length text) p) else None
  | PathConv name :: pat' =>
      match pat', p with
      | [], String c _ =>
          if Ascii.eqb c "/" || has_newline p then None else Some [(name, p)]
      | _, _ => None
      end
  end.

(** One pass over the rules: the first rule that matches path and method,
    and the methods of the rules that matched the path only. *)
Fixpoint match_rules (rules : list Rule) (m p : string) (have_match_for : list string)
    : option (Rule * list (string * string)) * list string :=
  match rules with
  | [] => (None, have_match_for)
  | r :: rs =>
      match match_pattern (pattern r) p with
      | Some view_args =>
          if mem m (methods r) then (Some (r, view_args), have_match_for)
          else match_rules rs m p (set_union have_match_for (methods r))
      | None => match_rules rs m p have_match_for
      end
  end.

(** The substitution of [/] for every [//], left to right. *)
Fixpoint merge_slashes (s : string) : string :=
  match s with
  | EmptyString => EmptyString
  | String c r =>
      match r with
      | String c' r' =>
          if Ascii.eqb c "/" && Ascii.eqb c' "/" then String "/" (merge_slashes r')
          else String c (merge_slashes r)
      | EmptyString => s
      end
  end.

Inductive routing :=
| Matched (r : Rule) (view_args : list (string * string))
| RoutingException (e : http_error).

(** [MapAdapter.match]: when nothing matches, the path is tried again with
    its slashes merged, and a match then is a redirect to the merged path. *)
Definition match_request (rules : list Rule) (req : request) : routing :=
  match match_rules rules (method req) (path req) [] with
  | (Some (r, view_args), _) => Matched r view_args
  | (None, have_match_for) =>
      let merged := merge_slashes (path req) in
      match match_rules rules (method req) merged have_match_for with
      | (Some _, _) => RoutingException (RequestRedirect merged)
      | (None, []) => RoutingException NotFound
      | (None, valid) => RoutingException (MethodNotAllowed valid)
      end
  end.

(** *** The framework: dispatch *)

(** What [dispatch_request] does with a request. *)
Inductive decision :=
| RaiseRouting (e : http_error)
| AutomaticOptions (r : Rule)
| CallView (name : string) (view_args : list (string * string)).

Definition decide (a : Flask) (req : request) : decision :=
  match match_request (url_map a) req with
  | RoutingException e => RaiseRouting e
  | Matched r view_args =>
      if provide_automatic_options r && String.eqb (method req) "OPTIONS"
      then AutomaticOptions r
      else CallView (endpoint r) view_args
  end.

Definition make_default_options_response (r : Rule) : response :=
  {| status := 200; mimetype := "text/html"; data := NoBody;
     allow := methods r; location := None |}.

Definition dispatch_request (a : Flask) (req : request) : Web response :=
  match decide a req with
  | RaiseRouting e => raise (HTTPException e)
  | AutomaticOptions r => ret (make_default_options_response r)
  | CallView name view_args =>
      match lookup name (view_functions a) with
      | Some view => view view_args
      | None => raise (Exception "KeyError" name)
      end
  end.

(** An HTTP exception is its own response; anything else is raised again. *)
Definition handle_user_exception (e : exn) : Web response :=
  match e with
  | HTTPException h => ret (get_response h)
  | Exception _ _ => raise e
  end.

Definition full_dispatch_request (a : Flask) (req : request) : Web response :=
  try_except (dispatch_request a req) handle_user_exception.

(** With debugging off, as [app.run] is called here, an exception that
    reaches the application boundary becomes the generic 500 response. *)
Definition handle_exception (e : exn) : Web response :=
  ret (get_response InternalServerError).

(** The response to a [HEAD] request is sent without its body. *)
Definition get_app_iter (e : environ) (r : response) : response :=
  if String.eqb (REQUEST_METHOD e) "HEAD"
  then {| status := status r; mimetype := mimetype r; data := NoBody;
          allow := allow r; location := location r |}
  else r.

Definition wsgi_app (a : Flask) (e : environ) (w : world) : response * world :=
  match try_except (full_dispatch_request a (Request e)) handle_exception w with
  | (Ok r, w') => (get_app_iter e r, w')
  | (Raise _, w') => (get_response InternalServerError, w')
  end.

(** *** The process *)

Inductive server :=
| Listening (host : string) (port : Z) (a : Flask)
| Stopped.

(** [app.run(host, port)]. *)
Definition run (a : Flask) (host : string) (port : Z) : server := Listening host port a.

(** The module body under the name [name]: the listener starts only when
    the file is run as a script. *)
Definition script (name : string) : option server :=
  if String.eqb name "__main__" then Some (run app "0.0.0.0" 8080) else None.

Inductive event :=
| Incoming (e : environ)
| Shutdown.

Definition step (s : server) (ev : event) (w : world) : server * option response * world :=
  match s, ev with
  | Listening host port a, Incoming e =>
      let (r, w') := wsgi_app a e w in (Listening host port a, Some r, w')
  | Listening _ _ _, Shutdown => (Stopped, None, w)
  | Stopped, _ => (Stopped, None, w)
  end.

(** The exchange the claims speak of: [GET /time]. *)
Definition get_time : environ := {| REQUEST_METHOD := "GET"; PATH_INFO := "/time" |}.

(** *** What the specification says of the response *)

(** The fields a body carries: the members of an object, or of the objects
    of an array. *)
Definition members_of (j : json) : list (string * json) :=
  match j with
  | JObj kv => kv
  | _ => []
  end.

Definition snapshot_fields (b : body) : list (string * json) :=
  match b with
  | Json (JObj kv) => kv
  | Json (JArr items) => flat_map members_of items
  | _ => []
  end.

Inductive json_type := TNull | TBool | TNum | TStr | TArr | TObj.

Definition type_of (j : json) : json_type :=
  match j with
  | JNull => TNull
  | JBool _ => TBool
  | JNum _ => TNum
  | JStr _ => TStr
  | JArr _ => TArr
  | JObj _ => TObj
  end.

(** Names and types of the fields of a body. *)
Definition shape (b : body) : list (string * json_type) :=
  map (fun kv => (fst kv, type_of (snd kv))) (snapshot_fields b).

(** Value of a two-digit and of a four-digit decimal field. *)
Definition two_digits (a b : ascii) : option Z :=
  if is_digit a && is_digit b then Some (10 * digit_val a + digit_val b) else None.

Definition four_digits (a b c d : ascii) : option Z :=
  if is_digit a && is_digit b && is_digit c && is_digit d
  then Some (1000 * digit_val a + 100 * digit_val b + 10 * digit_val c + digit_val d)
  else None.



(** The body of a time snapshot as the view builds it. *)
Definition snapshot (date time : string) : body :=
  Json (JArr [JObj [("current_date", JStr date)]; JObj [("current_time", JStr time)]]).

(** The body as one object with the two keys. *)
Definition merged_snapshot (date time : string) : body :=
  Json (JObj [("current_date", JStr date); ("current_time", JStr time)]).

Definition ok_json (b : body) : response :=
  {| status := 200; mimetype := "application/json"; data := b; allow := []; location := None |}.

(** A clock that passes midnight between its first read and the next. *)
Definition clock_over_midnight : nat -> reading :=
  fun k => match k with
           | O => Instant (Build_datetime 2024 3 1 23 59 59 999999)
           | S _ => Instant (Build_datetime 2024 3 2 0 0 0 0)
           end.

(** A clock whose read fails. *)
Definition broken_clock : nat -> reading :=
  fun _ => ClockFailure "OSError" "clock_gettime failed".


(** Reading the date and the time back from the text. *)
Definition parse_date (s : string) : option (Z * Z * Z) :=
  match s with
  | String y1 (String y2 (String y3 (String y4 (String "-"
      (String m1 (String m2 (String "-" (String d1 (String d2 EmptyString))))))))) =>
      match four_digits y1 y2 y3 y4, two_digits m1 m2, two_digits d1 d2 with
      | Some y, Some m, Some d => Some (y, m, d)
      | _, _, _ => None
      end
  | _ => None
  end.

Definition parse_time (s : string) : option (Z * Z * Z) :=
  match s with
  | String h1 (String h2 (String ":" (String m1 (String m2 (String ":"
      (String s1 (String s2 EmptyString))))))) =>
      match two_digits h1 h2, two_digits m1 m2, two_digits s1 s2 with
      | Some h, Some m, Some sec => Some (h, m, sec)
      | _, _, _ => None
      end
  | _ => None
  end.

(** The application answering a sequence of requests, one after the
    other. *)
Fixpoint serve (a : Flask) (es : list environ) (w : world) : list response * world :=
  match es with
  | [] => ([], w)
  | e :: es' =>
      let (r, w') := wsgi_app a e w in
      let (rs, w'') := serve a es' w' in
      (r :: rs, w'')
  end.

(** A clock that shows [t] at every read. *)
Definition frozen (t : datetime) : nat -> reading := fun _ => Instant t.

End Q3.

(** * Properties *)

(** ** Strings and ranges *)

Section StringFacts.
Import Py.

Lemma append_empty_r (s : string) : s ++ EmptyString = s.
Proof. induction s as [|c s IH]; simpl; [reflexivity | now rewrite IH]. Qed.

Lemma append_assoc (a b c : string) : (a ++ b) ++ c = a ++ (b ++ c).
Proof. induction a as [|x a IH]; simpl; [reflexivity | now rewrite IH]. Qed.

Lemma string_of_list_length (l : list ascii) :
  String.length (string_of_list_ascii l) = List.length l.
Proof. induction l as [|c l IH]; simpl; [reflexivity | now rewrite IH]. Qed.

Lemma string_of_list_get (l : list ascii) (n : nat) :
  String.get n (string_of_list_ascii l) = nth_error l n.
Proof.
  revert n; induction l as [|c l IH]; intros [|n]; simpl; try reflexivity.
  apply IH.
Qed.

Lemma string_of_list_app (l l' : list ascii) :
  string_of_list_ascii (l ++ l') = string_of_list_ascii l ++ string_of_list_ascii l'.
Proof. induction l as [|c l IH]; simpl; [reflexivity | now rewrite IH]. Qed.

Lemma range_length (n : Z) : List.length (range n) = Z.to_nat n.
Proof. unfold range. now rewrite length_map, length_seq. Qed.

Lemma range_nth (n i : Z) : 0 <= i < n -> nth_error (range n) (Z.to_nat i) = Some i.
Proof.
  intros H. unfold range.
  rewrite nth_error_map.
  assert (Hs : nth_error (seq 0 (Z.to_nat n)) (Z.to_nat i) = Some (Z.to_nat i)).
  { rewrite (nth_error_nth' _ 0%nat) by (rewrite length_seq; lia).
    rewrite seq_nth by lia. reflexivity. }
  rewrite Hs. simpl. f_equal. lia.
Qed.

Lemma fold_left_same {A B} (f g : A -> B -> A) (l : list B) (a : A) :
  (forall x y, f x y = g x y) -> fold_left f l a = fold_left g l a.
Proof.
  intros H. revert a; induction l as [|y l IH]; intros a; simpl; [reflexivity|].
  now rewrite H, IH.
Qed.

(** A loop that only appends prints the pieces in order. *)
Lemma fold_left_append {A} (f : A -> string) (l : list A) (out : string) :
  fold_left (fun o x => o ++ f x) l out = out ++ joined (map f l).
Proof.
  revert out; induction l as [|x l IH]; intros out; simpl.
  - now rewrite append_empty_r.
  - rewrite IH. apply append_assoc.
Qed.

End StringFacts.

(** ** Q1: the rendering loop *)

Section DrawRectangle.
Import Py Q1.

Lemma render_cell_appends (width height : Z) (c : ascii) (j : Z) (out : string) (i : Z) :
  render_cell width height (String c EmptyString) j out i
  = out ++ String (cell width height c j i) EmptyString.
Proof.
  unfold render_cell, cell, print. destruct (border width height j i); reflexivity.
Qed.

Lemma joined_singletons (l : list ascii) :
  joined (map (fun c => String c EmptyString) l) = string_of_list_ascii l.
Proof. induction l as [|c l IH]; simpl; [reflexivity | now rewrite IH]. Qed.

Lemma render_row_appends (width height : Z) (c : ascii) (out : string) (j : Z) :
  render_row width height (String c EmptyString) out j
  = out ++ (rect_line width height c j ++ nl).
Proof.
  unfold render_row, print, rect_line.
  rewrite (fold_left_same _ (fun o i => o ++ String (cell width height c j i) EmptyString))
    by (intros; apply render_cell_appends).
  rewrite (fold_left_append (fun i => String (cell width height c j i) EmptyString)).
  rewrite <- (map_map (cell width height c j) (fun a => String a EmptyString)).
  rewrite joined_singletons. simpl. now rewrite append_assoc.
Qed.

Lemma render_appends (width height : Z) (c : ascii) (out : string) :
  render width height (String c EmptyString) out
  = out ++ joined (map (fun l => l ++ nl) (map (rect_line width height c) (range height))).
Proof.
  unfold render.
  rewrite (fold_left_same _ (fun o j => o ++ (rect_line width height c j ++ nl)))
    by (intros; apply render_row_appends).
  rewrite (fold_left_append (fun j => rect_line width height c j ++ nl)).
  now rewrite map_map.
Qed.

Lemma rect_line_length (width height : Z) (c : ascii) (j : Z) :
  String.length (rect_line width height c j) = Z.to_nat width.
Proof. unfold rect_line. now rewrite string_of_list_length, length_map, range_length. Qed.

Lemma rect_line_get (width height : Z) (c : ascii) (j i : Z) :
  0 <= i < width ->
  String.get (Z.to_nat i) (rect_line width height c j) = Some (cell width height c j i).
Proof.
  intros H. unfold rect_line.
  rewrite string_of_list_get, nth_error_map, range_nth by assumption. reflexivity.
Qed.

Lemma single_character (char : string) :
  String.length char = 1%nat -> exists c, char = String c EmptyString.
Proof.
  destruct char as [|c [|d r]]; simpl; intros H; try discriminate. now exists c.
Qed.

Lemma rect_lines_hollow (width height : Z) (c : ascii) :
  hollow width height (String c EmptyString) (map (rect_line width height c) (range height)).
Proof.
  split.
  - now rewrite length_map, range_length.
  - intros j Hj. exists (rect_line width height c j). split; [|split].
    + rewrite nth_error_map, range_nth by assumption. reflexivity.
    + apply rect_line_length.
    + intros i Hi. rewrite rect_line_get by assumption. unfold cell. simpl.
      now destruct (border width height j i).
Qed.

Lemma hollow_iff_when_visible (width height : Z) (c : ascii) (lines : list string) :
  c <> " "%char ->
  hollow width height (String c EmptyString) lines ->
  hollow_iff width height (String c EmptyString) lines.
Proof.
  intros Hc [Hlen Hrows]. split; [assumption|].
  intros j Hj. destruct (Hrows j Hj) as (l & Hl & Hw & Hcells).
  exists l. split; [assumption|]. split; [assumption|].
  intros i Hi. rewrite (Hcells i Hi). simpl.
  destruct (border width height j i).
  - split; [tauto | discriminate].
  - split; [|reflexivity].
    split; [|discriminate].
    intros E. injection E as E'. symmetry in E'. contradiction.
Qed.

(** C9, as amended.  For every width >= 3, height >= 3 and single-character
    [char], the rendering loop of [draw_rectangle] prints exactly [height]
    lines of exactly [width] characters each; the character at row [j],
    column [i] is [char] if [j = 0] or [j = height - 1] or [i = 0] or
    [i = width - 1], and a space otherwise.  When [char] is not itself a
    space, [char] stands on the border and nowhere else. *)
Theorem render_prints_hollow_rectangle (width height : Z) (char out : string) :
  3 <= width -> 3 <= height -> String.length char = 1%nat ->
  exists lines,
    prints_lines width height char out lines /\
    hollow width height char lines /\
    (String.get 0 char <> Some " "%char -> hollow_iff width height char lines).
Proof.
  intros _ _ Hchar. destruct (single_character char Hchar) as [c ->].
  exists (map (rect_line width height c) (range height)).
  split; [apply render_appends|]. split; [apply rect_lines_hollow|].
  intros Hc. apply hollow_iff_when_visible; [|apply rect_lines_hollow].
  intros ->. now apply Hc.
Qed.

Lemma render_prints_hollow_rectangle_witness :
  exists lines,
    prints_lines 4 3 "#" EmptyString lines /\
    hollow 4 3 "#" lines /\
    (String.get 0 "#" <> Some " "%char -> hollow_iff 4 3 "#" lines).
Proof.
  apply (render_prints_hollow_rectangle 4 3 "#" EmptyString); [lia | lia | reflexivity].
Defined.

(** C9, as stated, fails when the chosen character is a space: the inner
    cell of a 3 by 3 rectangle then holds [char] although it is not on the
    border. *)
Lemma render_space_not_only_on_border :
  ~ exists lines,
      prints_lines 3 3 " " EmptyString lines /\ hollow_iff 3 3 " " lines.
Proof.
  intros (lines & _ & _ & Hrows).
  destruct (Hrows 1 ltac:(lia)) as (l & _ & _ & Hcells).
  destruct (Hcells 1 ltac:(lia)) as [Hiff Hspace].
  assert (Hget : String.get (Z.to_nat 1) l = Some " "%char) by (apply Hspace; reflexivity).
  apply Hiff in Hget. discriminate Hget.
Qed.

(** What the validation loop hands over is what the rendering loop asks
    for: sizes of at least 3 and a single character. *)
Lemma validate_valid_bounded (n : nat) :
  forall lines width height out w h c out' rest,
    (List.length lines <= n)%nat ->
    validate lines width height out = Valid w h c out' rest ->
    3 <= w /\ 3 <= h /\ String.length c = 1%nat.
Proof.
  induction n as [|n IH]; intros lines width height out w h c out' rest Hn.
  - destruct lines; [|simpl in Hn; lia].
    simpl. destruct ((width <? 3) || (height <? 3)); discriminate.
  - destruct lines as [|l1 lines].
    { simpl. destruct ((width <? 3) || (height <? 3)); discriminate. }
    simpl in Hn. simpl.
    destruct ((width <? 3) || (height <? 3)) eqn:Hsize.
    + destruct (int l1) as [width'|].
      * destruct lines as [|l2 rest2]; [discriminate|].
        simpl in Hn.
        destruct (int l2) as [height'|]; apply IH; lia.
      * apply IH; lia.
    + destruct (String.length l1 =? 1)%nat eqn:Hlen; simpl.
      * intros H. injection H as <- <- <- _ _.
        apply Bool.orb_false_iff in Hsize. destruct Hsize as [Hw Hh].
        apply Z.ltb_ge in Hw, Hh. apply Nat.eqb_eq in Hlen. auto.
      * apply IH; lia.
Qed.

(** Whenever [draw_rectangle] returns, what it printed ends with a hollow
    rectangle of the sizes and the character read from the console. *)
Lemma draw_rectangle_draws (lines : list string) (width height : Z) (char out : string)
    (rest : list string) :
  draw_rectangle lines width height char = Returned out rest ->
  exists w h c before drawn,
    validate lines width height EmptyString = Valid w h c before rest /\
    out = before ++ joined (map (fun l => l ++ nl) drawn) /\
    hollow w h c drawn.
Proof.
  unfold draw_rectangle.
  destruct (validate lines width height EmptyString) as [w h c before rest'|e o] eqn:Hv;
    [|discriminate].
  intros H. injection H as <- <-.
  destruct (validate_valid_bounded _ _ _ _ _ _ _ _ _ _ (le_n _) Hv) as (Hw & Hh & Hc).
  destruct (single_character c Hc) as [a ->].
  exists w, h, (String a EmptyString), before, (map (rect_line w h a) (range h)).
  split; [reflexivity|]. split; [apply render_appends | apply rect_lines_hollow].
Qed.

End DrawRectangle.

(** ** Q2: [insert_employee] *)

Section InsertEmployee.
Import Py Q2.

Ltac run_driver :=
  unfold insert_employee, insert_attempt, insert_statement_succeeds, try_except, bind, ret,
    print, modify, cursor, cursor_close, execute, commit, rollback, next_fault, view,
    set_txn, drop, log, new_row; simpl.

Ltac all_worlds w :=
  let emp := fresh "emp" in
  let tx := fresh "tx" in
  let cl := fresh "cl" in
  let fl := fresh "fl" in
  destruct w as [emp ? tx cl fl ? ?];
  run_driver;
  destruct cl; simpl;
  [| destruct fl as [|[] [|[] [|[] fl]]]; destruct tx as [|[?|]|]; destruct emp; simpl ].

(** C10, as amended.  [insert_employee] returns [True] exactly when creating
    the cursor, the INSERT and the commit all succeed, and then the new row
    is committed and no rollback is made; when one of the three raises a
    database error, [rollback] is called, and when [insert_employee] returns
    [False] the committed [employees] table is the one it started from. *)
Theorem insert_employee_commits_or_rolls_back (name department : string) (w : world) :
  let r := fst (insert_employee name department w) in
  let w' := snd (insert_employee name department w) in
  (r = Ok true <-> fst (insert_attempt name department w) = Ok tt) /\
  (r = Ok true ->
     exists rows, view w = Some rows /\
       employees w' = Some (rows ++ [new_row name department w])%list /\
       calls w' = (calls w ++ [CallCursor; CallExecute (Insert name department);
                               CallCommit; CallCursorClose])%list) /\
  (forall e, fst (insert_attempt name department w) = Raise e ->
     (exists before, calls w' = (before ++ [CallRollback])%list) /\
     (r = Ok false \/ exists e', r = Raise e')) /\
  (r = Ok false ->
     employees w' = employees w /\
     exists e, fst (insert_attempt name department w) = Raise e).
Proof.
  all_worlds w.
  all: repeat split; intros; try discriminate; try reflexivity; eauto.
  all: try (eexists; repeat split; try reflexivity; rewrite <- ?app_assoc; reflexivity).
  all: try (rewrite <- ?app_assoc; simpl; eexists; rewrite ?app_assoc; reflexivity).
Qed.

(** C10, as stated, fails when the INSERT goes through and the commit is
    refused: the statement succeeded, and [insert_employee] returns
    [False]. *)
Lemma insert_succeeds_commit_fails :
  let w := {| employees := Some []; serial := 1; txn_state := NoTxn; closed := false;
              faults := [NoFault; ServerError "could not serialize access"];
              calls := []; stdout := EmptyString |} in
  ~ (fst (insert_employee "Ann" "Ops" w) = Ok true <->
     insert_statement_succeeds "Ann" "Ops" w = true).
Proof.
  intros w [_ H]. specialize (H eq_refl). discriminate H.
Qed.

Lemma insert_employee_commits_or_rolls_back_witness :
  exists rows, view fresh_world = Some rows /\
    employees (snd (insert_employee "Ann" "Ops" fresh_world))
      = Some (rows ++ [new_row "Ann" "Ops" fresh_world])%list /\
    calls (snd (insert_employee "Ann" "Ops" fresh_world))
      = (calls fresh_world ++ [CallCursor; CallExecute (Insert "Ann" "Ops");
                               CallCommit; CallCursorClose])%list.
Proof.
  destruct (insert_employee_commits_or_rolls_back "Ann" "Ops" fresh_world) as (_ & H & _).
  apply H. reflexivity.
Defined.

(** The connection can drop under the INSERT: [rollback] on the closed
    connection raises in its turn, and the error leaves [insert_employee]
    instead of a [False]. *)
Example insert_employee_connection_lost :
  fst (insert_employee "Ann" "Ops"
         {| employees := Some []; serial := 1; txn_state := NoTxn; closed := false;
            faults := [ConnectionLost "server closed the connection unexpectedly"];
            calls := []; stdout := EmptyString |})
  = Raise already_closed.
Proof. reflexivity. Qed.

End InsertEmployee.

(** ** Q3: dates and times as text *)

Section Strftime.
Import Py Q3.

Lemma digit_char_is_digit (k : Z) : 0 <= k < 10 -> is_digit (digit_char k) = true.
Proof.
  intros H.
  assert (E : k = 0 \/ k = 1 \/ k = 2 \/ k = 3 \/ k = 4 \/ k = 5 \/ k = 6 \/ k = 7 \/ k = 8 \/ k = 9) by lia.
  repeat (destruct E as [-> | E]; [reflexivity|]). subst; reflexivity.
Qed.

Lemma digit_char_val (k : Z) : 0 <= k < 10 -> digit_val (digit_char k) = k.
Proof.
  intros H.
  assert (E : k = 0 \/ k = 1 \/ k = 2 \/ k = 3 \/ k = 4 \/ k = 5 \/ k = 6 \/ k = 7 \/ k = 8 \/ k = 9) by lia.
  repeat (destruct E as [-> | E]; [reflexivity|]). subst; reflexivity.
Qed.

Lemma zero_padded_2 (n : Z) :
  0 <= n < 100 ->
  zero_padded 2 n = String (digit_char (n / 10)) (String (digit_char (n mod 10)) EmptyString).
Proof.
  intros H. unfold zero_padded.
  replace (n <? 10 ^ Z.of_nat 2) with true by (symmetry; apply Z.ltb_lt; simpl; lia).
  simpl. rewrite (Z.mod_small (n / 10) 10) by (split; [apply Z.div_pos | apply Z.div_lt_upper_bound]; lia).
  reflexivity.
Qed.

Lemma zero_padded_4 (n : Z) :
  0 <= n < 10000 ->
  zero_padded 4 n =
    String (digit_char (n / 1000)) (String (digit_char (n / 100 mod 10))
      (String (digit_char (n / 10 mod 10)) (String (digit_char (n mod 10)) EmptyString))).
Proof.
  intros H. unfold zero_padded.
  replace (n <? 10 ^ Z.of_nat 4) with true by (symmetry; apply Z.ltb_lt; simpl; lia).
  simpl. rewrite !Z.div_div by lia. simpl.
  rewrite (Z.mod_small (n / 1000) 10) by (split; [apply Z.div_pos | apply Z.div_lt_upper_bound]; lia).
  reflexivity.
Qed.

Lemma two_digits_padded (n : Z) :
  0 <= n < 100 -> two_digits (digit_char (n / 10)) (digit_char (n mod 10)) = Some n.
Proof.
  intros H. unfold two_digits.
  assert (H1 : 0 <= n / 10 < 10) by (split; [apply Z.div_pos | apply Z.div_lt_upper_bound]; lia).
  assert (H2 : 0 <= n mod 10 < 10) by (apply Z.mod_pos_bound; lia).
  rewrite !digit_char_is_digit, !digit_char_val by assumption. cbn [andb].
  f_equal. pose proof (Z.div_mod n 10 ltac:(lia)). lia.
Qed.

Lemma four_digits_padded (n : Z) :
  0 <= n < 10000 ->
  four_digits (digit_char (n / 1000)) (digit_char (n / 100 mod 10))
    (digit_char (n / 10 mod 10)) (digit_char (n mod 10)) = Some n.
Proof.
  intros H. unfold four_digits.
  assert (H1 : 0 <= n / 1000 < 10) by (split; [apply Z.div_pos | apply Z.div_lt_upper_bound]; lia).
  assert (H2 : 0 <= n / 100 mod 10 < 10) by (apply Z.mod_pos_bound; lia).
  assert (H3 : 0 <= n / 10 mod 10 < 10) by (apply Z.mod_pos_bound; lia).
  assert (H4 : 0 <= n mod 10 < 10) by (apply Z.mod_pos_bound; lia).
  rewrite !digit_char_is_digit, !digit_char_val by assumption. cbn [andb].
  f_equal.
  pose proof (Z.div_mod n 10 ltac:(lia)). pose proof (Z.div_mod (n / 10) 10 ltac:(lia)).
  pose proof (Z.div_mod (n / 100) 10 ltac:(lia)).
  assert (n / 10 / 10 = n / 100) by (rewrite Z.div_div by lia; reflexivity).
  assert (n / 100 / 10 = n / 1000) by (rewrite Z.div_div by lia; reflexivity).
  lia.
Qed.

(** From 1000 to 9999 the decimal digits of a number are four; checked on
    each of the 9000 numbers. *)
Lemma decimal_four_digits (n : Z) :
  1000 <= n <= 9999 ->
  decimal n =
    String (digit_char (n / 1000)) (String (digit_char (n / 100 mod 10))
      (String (digit_char (n / 10 mod 10)) (String (digit_char (n mod 10)) EmptyString))).
Proof.
  intros H.
  assert (Hall : forallb (fun k => String.eqb (decimal (Z.of_nat k))
                                     (zero_padded 4 (Z.of_nat k)))
                   (seq 1000 (9 * 1000)) = true) by (vm_compute; reflexivity).
  rewrite forallb_forall in Hall. specialize (Hall (Z.to_nat n)).
  rewrite Z2Nat.id in Hall by lia.
  rewrite <- zero_padded_4 by lia.
  apply String.eqb_eq, Hall, in_seq. lia.
Qed.

Lemma strftime_date_parts (t : datetime) :
  strftime t "%Y-%m-%d"
  = decimal (year t) ++ String "-" (zero_padded 2 (month t)
      ++ String "-" (zero_padded 2 (day t) ++ EmptyString)).
Proof. reflexivity. Qed.

Lemma strftime_time_parts (t : datetime) :
  strftime t "%H:%M:%S"
  = zero_padded 2 (hour t) ++ String ":" (zero_padded 2 (minute t)
      ++ String ":" (zero_padded 2 (second t) ++ EmptyString)).
Proof. reflexivity. Qed.

Lemma valid_datetime_bounds (t : datetime) :
  valid_datetime t = true ->
  (1 <= year t <= 9999) /\ (1 <= month t <= 12) /\
  (1 <= day t <= days_in_month (year t) (month t)) /\
  (0 <= hour t <= 23) /\ (0 <= minute t <= 59) /\ (0 <= second t <= 59).
Proof.
  unfold valid_datetime. rewrite !Bool.andb_true_iff, !Z.leb_le. lia.
Qed.

Lemma days_in_month_le (y m : Z) : days_in_month y m <= 31.
Proof.
  unfold days_in_month.
  destruct (m =? 2); [destruct (is_leap y); lia|].
  destruct ((m =? 4) || (m =? 6) || (m =? 9) || (m =? 11)); lia.
Qed.



Lemma append_dash_nonempty (a b : string) (c : ascii) : a ++ String c b <> EmptyString.
Proof. destruct a; discriminate. Qed.

Lemma strftime_date_nonempty (t : datetime) : strftime t "%Y-%m-%d" <> EmptyString.
Proof. rewrite strftime_date_parts. apply append_dash_nonempty. Qed.

Lemma strftime_time_nonempty (t : datetime) : strftime t "%H:%M:%S" <> EmptyString.
Proof. rewrite strftime_time_parts. apply append_dash_nonempty. Qed.

End Strftime.

(** ** Q3: the view and its dispatch *)

Section TimeService.
Import Py Q3.

Lemma url_map_app : url_map app = [static_rule; time_rule].
Proof. reflexivity. Qed.

Lemma decide_get_time : decide app (Request get_time) = CallView "get_current_time_date" [].
Proof. reflexivity. Qed.

(** The exchange [GET /time], whatever the world. *)
Lemma wsgi_app_get_time (w : world) :
  wsgi_app app get_time w =
  match clock w (ticks w) with
  | Instant t => (ok_json (snapshot (strftime t "%Y-%m-%d") (strftime t "%H:%M:%S")), tick w)
  | ClockFailure _ _ => (get_response InternalServerError, tick w)
  end.
Proof.
  unfold wsgi_app, full_dispatch_request, dispatch_request, try_except.
  rewrite decide_get_time. cbn [lookup app route add_url_rule view_functions String.eqb Ascii.eqb Bool.eqb].
  unfold get_current_time_date, bind, now.
  destruct (clock w (ticks w)); reflexivity.
Qed.

(** C1, as amended.  For every request [GET /time] handled while the clock
    reads 2030-01-01T00:00:00, the JSON response body is the array of the
    two single-key objects [{"current_date": "2030-01-01"}] and
    [{"current_time": "00:00:00"}], in this order, with status 200. *)
Theorem get_time_new_year_2030 (w : world) (us : Z) :
  clock w (ticks w) = Instant (Build_datetime 2030 1 1 0 0 0 us) ->
  fst (wsgi_app app get_time w) = ok_json (snapshot "2030-01-01" "00:00:00").
Proof.
  intros H. rewrite wsgi_app_get_time, H. reflexivity.
Qed.

Lemma get_time_new_year_2030_witness :
  fst (wsgi_app app get_time
         {| clock := frozen (Build_datetime 2030 1 1 0 0 0 0); ticks := 0; static_files := [] |})
  = ok_json (snapshot "2030-01-01" "00:00:00").
Proof.
  apply (get_time_new_year_2030 _ 0). reflexivity.
Defined.

(** C1, as stated, fails: at 2030-01-01T00:00:00 the body is not the single
    object with the two keys. *)
Lemma get_time_new_year_2030_not_one_object :
  data (fst (wsgi_app app get_time
               {| clock := frozen (Build_datetime 2030 1 1 0 0 0 0); ticks := 0;
                  static_files := [] |}))
  <> merged_snapshot "2030-01-01" "00:00:00".
Proof.
  rewrite wsgi_app_get_time. simpl. unfold snapshot, merged_snapshot. discriminate.
Qed.

(** C2.  For every request [GET /time] the handler reads the clock exactly
    once, and both the date string and the time string come from the
    instant of that one read; with the clock at 2024-03-01T23:59:59 the
    fields are "2024-03-01" and "23:59:59", whatever the clock shows at
    later reads. *)
Theorem get_time_reads_clock_once (w : world) :
  ticks (snd (wsgi_app app get_time w)) = S (ticks w) /\
  clock (snd (wsgi_app app get_time w)) = clock w /\
  (forall t, clock w (ticks w) = Instant t ->
     data (fst (wsgi_app app get_time w))
     = snapshot (strftime t "%Y-%m-%d") (strftime t "%H:%M:%S")) /\
  (forall us, clock w (ticks w) = Instant (Build_datetime 2024 3 1 23 59 59 us) ->
     snapshot_fields (data (fst (wsgi_app app get_time w)))
     = [("current_date", JStr "2024-03-01"); ("current_time", JStr "23:59:59")]).
Proof.
  rewrite wsgi_app_get_time.
  repeat split.
  - destruct (clock w (ticks w)); reflexivity.
  - destruct (clock w (ticks w)); reflexivity.
  - intros t ->. reflexivity.
  - intros us ->. reflexivity.
Qed.

Lemma get_time_reads_clock_once_witness :
  snapshot_fields (data (fst (wsgi_app app get_time
     {| clock := clock_over_midnight; ticks := 0; static_files := [] |})))
  = [("current_date", JStr "2024-03-01"); ("current_time", JStr "23:59:59")].
Proof.
  destruct (get_time_reads_clock_once
              {| clock := clock_over_midnight; ticks := 0; static_files := [] |})
    as (_ & _ & _ & H).
  apply (H 999999). reflexivity.
Defined.




(** C4.  For every successful call to [GET /time], whatever the clock
    shows, the response has status 200 and its body holds the field
    [current_date] and the field [current_time], each a non-empty string:
    the same two field names and types on every call. *)
Theorem get_time_same_shape (w : world) (t : datetime) :
  clock w (ticks w) = Instant t ->
  status (fst (wsgi_app app get_time w)) = 200 /\
  shape (data (fst (wsgi_app app get_time w)))
  = [("current_date", TStr); ("current_time", TStr)] /\
  exists date time,
    snapshot_fields (data (fst (wsgi_app app get_time w)))
    = [("current_date", JStr date); ("current_time", JStr time)] /\
    date <> EmptyString /\ time <> EmptyString.
Proof.
  intros H. rewrite wsgi_app_get_time, H.
  split; [reflexivity|]. split; [reflexivity|].
  exists (strftime t "%Y-%m-%d"), (strftime t "%H:%M:%S").
  split; [reflexivity|].
  split; [apply strftime_date_nonempty | apply strftime_time_nonempty].
Qed.

Lemma get_time_same_shape_witness :
  status (fst (wsgi_app app get_time
     {| clock := clock_over_midnight; ticks := 1; static_files := [] |})) = 200 /\
  shape (data (fst (wsgi_app app get_time
     {| clock := clock_over_midnight; ticks := 1; static_files := [] |})))
  = [("current_date", TStr); ("current_time", TStr)] /\
  exists date time,
    snapshot_fields (data (fst (wsgi_app app get_time
       {| clock := clock_over_midnight; ticks := 1; static_files := [] |})))
    = [("current_date", JStr date); ("current_time", JStr time)] /\
    date <> EmptyString /\ time <> EmptyString.
Proof.
  apply (get_time_same_shape _ (Build_datetime 2024 3 2 0 0 0 0)). reflexivity.
Defined.

(** An exception that is not an HTTP exception and leaves a view, of any
    application, becomes the generic 500 response. *)
Lemma wsgi_app_exception (a : Flask) (e : environ) (w w' : world) (cls msg : string) :
  dispatch_request a (Request e) w = (Raise (Exception cls msg), w') ->
  wsgi_app a e w = (get_app_iter e (get_response InternalServerError), w').
Proof.
  intros H. unfold wsgi_app, full_dispatch_request, try_except. rewrite H. reflexivity.
Qed.





End TimeService.

(** ** Q3: routing *)

Section Routing.
Import Py Q3.

Lemma prefix_split (s p : string) :
  String.prefix s p = true -> p = s ++ skip (String.length s) p.
Proof.
  revert p; induction s as [|a s IH]; intros p; [reflexivity|].
  destruct p as [|b p]; simpl; [discriminate|].
  destruct (ascii_dec a b) as [->|]; [|discriminate].
  intros H. now rewrite <- IH.
Qed.

Lemma prefix_append (s r : string) : String.prefix s (s ++ r) = true.
Proof.
  induction s as [|a s IH]; simpl; [now destruct r|].
  destruct (ascii_dec a a); [assumption | contradiction].
Qed.

Lemma match_time_pattern (p : string) (a : list (string * string)) :
  match_pattern [Lit "/time"] p = Some a -> p = "/time".
Proof.
  cbn [match_pattern].
  destruct (String.prefix "/time" p) eqn:Hp; [|discriminate].
  apply prefix_split in Hp. revert Hp.
  destruct (skip (String.length "/time") p); [|discriminate].
  intros -> _. reflexivity.
Qed.

Lemma match_static_pattern (p : string) (a : list (string * string)) :
  match_pattern [Lit "/static/"; PathConv "filename"] p = Some a ->
  String.prefix "/static/" p = true.
Proof.
  cbn [match_pattern].
  destruct (String.prefix "/static/" p); [reflexivity | discriminate].
Qed.

Lemma match_rules_app_none (m p : string) (h : list string) :
  p <> "/time" -> String.prefix "/static/" p = false ->
  match_rules (url_map app) m p h = (None, h).
Proof.
  intros Ht Hs. rewrite url_map_app. cbn [match_rules static_rule time_rule pattern].
  destruct (match_pattern [Lit "/static/"; PathConv "filename"] p) eqn:E1.
  { apply match_static_pattern in E1. congruence. }
  destruct (match_pattern [Lit "/time"] p) eqn:E2.
  { apply match_time_pattern in E2. contradiction. }
  reflexivity.
Qed.

Lemma merge_head_other (c : ascii) (r : string) :
  c <> "/"%char -> merge_slashes (String c r) = String c (merge_slashes r).
Proof.
  intros Hc. destruct r as [|c' r]; [reflexivity|].
  cbn [merge_slashes]. fold (merge_slashes (String c' r)).
  apply Ascii.eqb_neq in Hc. now rewrite Hc.
Qed.

Lemma merge_head_single (r : string) :
  (forall r', r <> String "/" r') ->
  merge_slashes (String "/" r) = String "/" (merge_slashes r).
Proof.
  intros Hr. destruct r as [|c' r]; [reflexivity|].
  cbn [merge_slashes]. fold (merge_slashes (String c' r)).
  destruct (Ascii.eqb c' "/") eqn:E; [|reflexivity].
  apply Ascii.eqb_eq in E. subst. now destruct (Hr r).
Qed.

Lemma merge_head_slash (r : string) :
  exists t, merge_slashes (String "/" r) = String "/" t.
Proof.
  destruct r as [|c' r]; [now exists EmptyString|].
  cbn [merge_slashes]. fold (merge_slashes (String c' r)).
  destruct (Ascii.eqb "/" "/" && Ascii.eqb c' "/"); eauto.
Qed.

Lemma merge_inv_other (c : ascii) (t s : string) :
  c <> "/"%char -> merge_slashes s = String c t ->
  exists s', s = String c s' /\ merge_slashes s' = t.
Proof.
  intros Hc H. destruct s as [|a s]; [discriminate|].
  destruct (ascii_dec a "/") as [->|Ha].
  - destruct (merge_head_slash s) as [t' E]. rewrite E in H. congruence.
  - rewrite merge_head_other in H by assumption.
    injection H as -> <-. eauto.
Qed.

Lemma merge_inv_slash (t s : string) :
  merge_slashes s = String "/" t -> exists s', s = String "/" s'.
Proof.
  intros H. destruct s as [|a s]; [discriminate|].
  destruct (ascii_dec a "/") as [->|Ha]; [eauto|].
  rewrite merge_head_other in H by assumption. congruence.
Qed.

Lemma merge_inv_empty (s : string) : merge_slashes s = EmptyString -> s = EmptyString.
Proof.
  destruct s as [|a [|b s]]; [reflexivity | discriminate |].
  cbn [merge_slashes]. destruct (Ascii.eqb a "/" && Ascii.eqb b "/"); discriminate.
Qed.

Lemma lstrip_slash_head (x r : string) : lstrip_slash x <> String "/" r.
Proof.
  induction x as [|c x IH]; simpl; [discriminate|].
  destruct (Ascii.eqb c "/") eqn:E; [assumption|].
  apply Ascii.eqb_neq in E. congruence.
Qed.

Ltac peel H :=
  let s := fresh "s" in
  let E := fresh "E" in
  apply merge_inv_other in H; [|discriminate];
  destruct H as (s & E & H); rewrite E; clear E.

(** Merging slashes creates no match for a path that has one leading
    slash. *)
Lemma merged_time (q : string) :
  (forall r, q <> String "/" r) ->
  merge_slashes (String "/" q) = "/time" -> String "/" q = "/time".
Proof.
  intros Hq H. rewrite merge_head_single in H by assumption.
  injection H as H.
  peel H. peel H. peel H. peel H.
  apply merge_inv_empty in H. now subst.
Qed.

Lemma merged_static (q : string) :
  (forall r, q <> String "/" r) ->
  String.prefix "/static/" (merge_slashes (String "/" q)) = true ->
  String.prefix "/static/" (String "/" q) = true.
Proof.
  intros Hq H. apply prefix_split in H. rewrite merge_head_single in H by assumption.
  cbn [append String.length skip] in H. injection H as H.
  revert H. generalize (skip 7 (merge_slashes q)). intros rest H.
  peel H. peel H. peel H. peel H. peel H. peel H.
  apply merge_inv_slash in H. destruct H as [s' ->].
  apply (prefix_append "/static/" s').
Qed.

Lemma decide_unmatched (e : environ) :
  path (Request e) <> "/time" ->
  String.prefix "/static/" (path (Request e)) = false ->
  decide app (Request e) = RaiseRouting NotFound.
Proof.
  intros Ht Hs. unfold decide, match_request.
  rewrite match_rules_app_none by assumption.
  rewrite match_rules_app_none; [reflexivity | |].
  - intros H. apply Ht. cbn [Request path] in *.
    apply merged_time; [apply lstrip_slash_head | assumption].
  - destruct (String.prefix "/static/" (merge_slashes (path (Request e)))) eqn:E;
      [|reflexivity].
    cbn [Request path] in *.
    apply merged_static in E; [congruence | apply lstrip_slash_head].
Qed.

Lemma get_app_iter_status (e : environ) (r : response) :
  status (get_app_iter e r) = status r.
Proof. unfold get_app_iter. now destruct (String.eqb (REQUEST_METHOD e) "HEAD"). Qed.

Lemma wsgi_app_routing_error (e : environ) (h : http_error) (w : world) :
  decide app (Request e) = RaiseRouting h ->
  wsgi_app app e w = (get_app_iter e (get_response h), w).
Proof.
  intros D. unfold wsgi_app, full_dispatch_request, dispatch_request, try_except.
  rewrite D. reflexivity.
Qed.

(** C5, as amended.  For every request whose path, with its leading slashes
    reduced to one, is not [/time] and does not start with [/static/], the
    prefix of the rule the framework registers for static files, no view
    function runs, the world is left as it was, and the response is the
    framework's default 404. *)
Theorem unmatched_path_not_found (e : environ) (w : world) :
  path (Request e) <> "/time" ->
  String.prefix "/static/" (path (Request e)) = false ->
  decide app (Request e) = RaiseRouting NotFound /\
  wsgi_app app e w = (get_app_iter e (get_response NotFound), w) /\
  status (fst (wsgi_app app e w)) = 404.
Proof.
  intros Ht Hs. pose proof (decide_unmatched e Ht Hs) as D.
  split; [assumption|].
  rewrite (wsgi_app_routing_error e NotFound w D).
  split; [reflexivity|]. simpl. now rewrite get_app_iter_status.
Qed.

Lemma unmatched_path_not_found_witness :
  status (fst (wsgi_app app {| REQUEST_METHOD := "GET"; PATH_INFO := "/unknown" |}
                {| clock := broken_clock; ticks := 0; static_files := [] |})) = 404.
Proof.
  apply (unmatched_path_not_found {| REQUEST_METHOD := "GET"; PATH_INFO := "/unknown" |});
    [discriminate | reflexivity].
Defined.

(** C5, as stated, fails on the rule for static files: a [POST] to a path
    under [/static/] is answered 405, not 404. *)
Lemma static_path_not_404 :
  ~ (forall (e : environ) (w : world),
       PATH_INFO e <> "/time" -> status (fst (wsgi_app app e w)) = 404).
Proof.
  intros H.
  specialize (H {| REQUEST_METHOD := "POST"; PATH_INFO := "/static/logo.png" |}
                {| clock := broken_clock; ticks := 0; static_files := [] |}).
  assert (E : 405 = 404) by (apply H; discriminate).
  discriminate E.
Qed.

(** Two more answers that are not 404: [OPTIONS] on a static path is
    answered by the framework with 200, and a path that differs from
    [/time] only by leading slashes reaches the view. *)
Example static_path_options :
  status (fst (wsgi_app app {| REQUEST_METHOD := "OPTIONS"; PATH_INFO := "/static/logo.png" |}
                {| clock := broken_clock; ticks := 0; static_files := [] |})) = 200.
Proof. reflexivity. Qed.

Example doubled_slash_time :
  fst (wsgi_app app {| REQUEST_METHOD := "GET"; PATH_INFO := "//time" |}
         {| clock := frozen (Build_datetime 2030 1 1 0 0 0 0); ticks := 0; static_files := [] |})
  = ok_json (snapshot "2030-01-01" "00:00:00").
Proof. reflexivity. Qed.

(** *** Methods on [/time] *)

Lemma mem_false_3 (m a b c : string) :
  m <> a -> m <> b -> m <> c -> mem m [a; b; c] = false.
Proof.
  intros Ha Hb Hc. unfold mem. simpl.
  apply String.eqb_neq in Ha, Hb, Hc. now rewrite Ha, Hb, Hc.
Qed.

Lemma match_rules_time_other (m : string) (h : list string) :
  mem m ["GET"; "OPTIONS"; "HEAD"] = false ->
  match_rules [static_rule; time_rule] m "/time" h
  = (None, set_union h ["GET"; "OPTIONS"; "HEAD"]).
Proof.
  intros H.
  change (match_rules [static_rule; time_rule] m "/time" h)
    with (if mem m ["GET"; "OPTIONS"; "HEAD"]
          then (Some (time_rule, @nil (string * string)), h)
          else (@None (Rule * list (string * string)), set_union h ["GET"; "OPTIONS"; "HEAD"])).
  now rewrite H.
Qed.

Lemma decide_time_other (m : string) :
  upper m <> "GET" -> upper m <> "HEAD" -> upper m <> "OPTIONS" ->
  decide app (Request {| REQUEST_METHOD := m; PATH_INFO := "/time" |})
  = RaiseRouting (MethodNotAllowed ["GET"; "OPTIONS"; "HEAD"]).
Proof.
  intros Hg Hh Ho.
  pose proof (mem_false_3 (upper m) "GET" "OPTIONS" "HEAD" Hg Ho Hh) as Hm.
  unfold decide, match_request. rewrite url_map_app.
  change (path (Request {| REQUEST_METHOD := m; PATH_INFO := "/time" |})) with "/time".
  change (method (Request {| REQUEST_METHOD := m; PATH_INFO := "/time" |})) with (upper m).
  rewrite (match_rules_time_other _ _ Hm).
  change (merge_slashes "/time") with "/time".
  rewrite (match_rules_time_other _ _ Hm).
  reflexivity.
Qed.

Lemma upper_HEAD (m : string) : m = "HEAD" -> upper m = "HEAD".
Proof. intros ->. reflexivity. Qed.

(** C8, as amended.  The [/time] route is registered with [methods=['GET']],
    to which the framework adds [HEAD] and [OPTIONS].  A request to [/time]
    with any other method is never dispatched to the handler and is rejected
    with 405; a [HEAD] request is dispatched to the handler and answered 200
    without a body; an [OPTIONS] request is answered 200 by the framework
    without running the handler. *)
Theorem time_route_methods (m : string) (w : world) :
  upper m <> "GET" -> upper m <> "HEAD" -> upper m <> "OPTIONS" ->
  (decide app (Request {| REQUEST_METHOD := m; PATH_INFO := "/time" |})
     = RaiseRouting (MethodNotAllowed ["GET"; "OPTIONS"; "HEAD"]) /\
   wsgi_app app {| REQUEST_METHOD := m; PATH_INFO := "/time" |} w
     = (get_response (MethodNotAllowed ["GET"; "OPTIONS"; "HEAD"]), w) /\
   status (fst (wsgi_app app {| REQUEST_METHOD := m; PATH_INFO := "/time" |} w)) = 405) /\
  (decide app (Request {| REQUEST_METHOD := "HEAD"; PATH_INFO := "/time" |})
     = CallView "get_current_time_date" [] /\
   ticks (snd (wsgi_app app {| REQUEST_METHOD := "HEAD"; PATH_INFO := "/time" |} w))
     = S (ticks w) /\
   (forall t, clock w (ticks w) = Instant t ->
      status (fst (wsgi_app app {| REQUEST_METHOD := "HEAD"; PATH_INFO := "/time" |} w)) = 200 /\
      data (fst (wsgi_app app {| REQUEST_METHOD := "HEAD"; PATH_INFO := "/time" |} w)) = NoBody)) /\
  (decide app (Request {| REQUEST_METHOD := "OPTIONS"; PATH_INFO := "/time" |})
     = AutomaticOptions time_rule /\
   wsgi_app app {| REQUEST_METHOD := "OPTIONS"; PATH_INFO := "/time" |} w
     = (make_default_options_response time_rule, w)).
Proof.
  intros Hg Hh Ho. split; [|split].
  - pose proof (decide_time_other m Hg Hh Ho) as D.
    split; [assumption|].
    rewrite (wsgi_app_routing_error _ _ w D).
    assert (Hraw : String.eqb m "HEAD" = false).
    { apply String.eqb_neq. intros E. apply Hh. now apply upper_HEAD. }
    unfold get_app_iter. cbn [REQUEST_METHOD]. rewrite Hraw. split; reflexivity.
  - split; [reflexivity|].
    unfold wsgi_app, full_dispatch_request, dispatch_request, try_except.
    change (decide app (Request {| REQUEST_METHOD := "HEAD"; PATH_INFO := "/time" |}))
      with (CallView "get_current_time_date" []).
    cbn [lookup app route add_url_rule view_functions String.eqb Ascii.eqb Bool.eqb].
    unfold get_current_time_date, bind, now.
    split.
    + destruct (clock w (ticks w)); reflexivity.
    + intros t ->. split; reflexivity.
  - split; reflexivity.
Qed.

Lemma time_route_methods_witness :
  status (fst (wsgi_app app {| REQUEST_METHOD := "POST"; PATH_INFO := "/time" |}
                {| clock := frozen (Build_datetime 2030 1 1 0 0 0 0); ticks := 0;
                   static_files := [] |})) = 405.
Proof.
  apply (time_route_methods "POST"); discriminate.
Defined.

(** C8, as stated, fails for [HEAD]: the request is dispatched to the
    handler and answered 200. *)
Lemma time_head_not_405 :
  ~ (forall (m : string) (w : world),
       m <> "GET" ->
       decide app (Request {| REQUEST_METHOD := m; PATH_INFO := "/time" |})
         <> CallView "get_current_time_date" [] /\
       status (fst (wsgi_app app {| REQUEST_METHOD := m; PATH_INFO := "/time" |} w)) = 405).
Proof.
  intros H.
  destruct (H "HEAD" {| clock := frozen (Build_datetime 2030 1 1 0 0 0 0); ticks := 0;
                        static_files := [] |} ltac:(discriminate)) as [Hd _].
  apply Hd. reflexivity.
Qed.

End Routing.

(** ** Q3: the process *)

Section Process.
Import Py Q3.

Lemma match_rules_in (rules : list Rule) (m p : string) :
  forall h r a h', match_rules rules m p h = (Some (r, a), h') -> In r rules.
Proof.
  induction rules as [|r0 rules IH]; intros h r a h'; simpl; [discriminate|].
  destruct (match_pattern (pattern r0) p).
  - destruct (mem m (methods r0)).
    + intros H. injection H as <- _ _. now left.
    + intros H. right. eapply IH, H.
  - intros H. right. eapply IH, H.
Qed.

Lemma decide_app_view (req : request) (name : string) (args : list (string * string)) :
  decide app req = CallView name args ->
  name = "static" \/ name = "get_current_time_date".
Proof.
  unfold decide, match_request.
  destruct (match_rules (url_map app) (method req) (path req) []) as [[[r a]|] h] eqn:E.
  - apply match_rules_in in E. rewrite url_map_app in E.
    destruct (provide_automatic_options r && String.eqb (method req) "OPTIONS");
      [discriminate|].
    intros H. injection H as <- _.
    destruct E as [<- | [<- | []]]; [now left | now right].
  - destruct (match_rules (url_map app) (method req) (merge_slashes (path req)) h)
      as [[[r a]|] [|v h']]; discriminate.
Qed.

(** What one exchange does to the world, and what it depends on. *)
Lemma wsgi_app_effect (e : environ) (w : world) :
  (snd (wsgi_app app e w) = w \/ snd (wsgi_app app e w) = tick w) /\
  forall w2, clock w2 (ticks w2) = clock w (ticks w) -> static_files w2 = static_files w ->
    fst (wsgi_app app e w2) = fst (wsgi_app app e w).
Proof.
  unfold wsgi_app, full_dispatch_request, dispatch_request, try_except.
  destruct (decide app (Request e)) as [h | r | name args] eqn:D.
  - split; [now left | reflexivity].
  - split; [now left | reflexivity].
  - destruct (decide_app_view _ _ _ D) as [-> | ->].
    + cbn [lookup app route add_url_rule Flask_init view_functions String.eqb Ascii.eqb Bool.eqb].
      unfold send_static_file.
      destruct (lookup "filename" args) as [filename|].
      * split.
        -- destruct (lookup filename (static_files w)); now left.
        -- intros w2 _ ->. destruct (lookup filename (static_files w)); reflexivity.
      * split; [now left | reflexivity].
    + cbn [lookup app route add_url_rule Flask_init view_functions String.eqb Ascii.eqb Bool.eqb].
      unfold get_current_time_date, bind, now.
      split.
      * destruct (clock w (ticks w)); now right.
      * intros w2 -> _. destruct (clock w (ticks w)); reflexivity.
Qed.

(** C7.  Run as a script, the module starts a listener bound to all
    interfaces, address 0.0.0.0, on port 8080.  The handler keeps no mutable
    state: an exchange leaves the listener, the application and the static
    files as they were, advances nothing but the count of clock reads, and
    its response depends on no earlier exchange, only on the request and on
    what the clock and the static folder show. *)
Theorem listener_binding_and_frame (e : environ) (w : world) :
  script "__main__" = Some (Listening "0.0.0.0" 8080 app) /\
  step (Listening "0.0.0.0" 8080 app) (Incoming e) w
    = (Listening "0.0.0.0" 8080 app, Some (fst (wsgi_app app e w)), snd (wsgi_app app e w)) /\
  clock (snd (wsgi_app app e w)) = clock w /\
  static_files (snd (wsgi_app app e w)) = static_files w /\
  (ticks (snd (wsgi_app app e w)) = ticks w \/ ticks (snd (wsgi_app app e w)) = S (ticks w)) /\
  (forall w2, clock w2 (ticks w2) = clock w (ticks w) -> static_files w2 = static_files w ->
     fst (wsgi_app app e w2) = fst (wsgi_app app e w)).
Proof.
  split; [reflexivity|].
  split; [unfold step; now destruct (wsgi_app app e w)|].
  destruct (wsgi_app_effect e w) as [Hw Hr].
  repeat split; try assumption.
  - destruct Hw as [-> | ->]; reflexivity.
  - destruct Hw as [-> | ->]; reflexivity.
  - destruct Hw as [-> | ->]; [now left | now right].
Qed.

Lemma listener_binding_and_frame_witness :
  fst (wsgi_app app get_time
         {| clock := frozen (Build_datetime 2030 1 1 0 0 0 0); ticks := 7; static_files := [] |})
  = fst (wsgi_app app get_time
         {| clock := frozen (Build_datetime 2030 1 1 0 0 0 0); ticks := 0; static_files := [] |}).
Proof.
  destruct (listener_binding_and_frame get_time
              {| clock := frozen (Build_datetime 2030 1 1 0 0 0 0); ticks := 0;
                 static_files := [] |}) as (_ & _ & _ & _ & _ & H).
  apply H; reflexivity.
Defined.

End Process.

(** * Further properties of the scripts *)

(** ** Q1: the validation loop and the script *)

Section DrawRectangleScript.
Import Py Q1.

Lemma validate_reads_bounded (n : nat) :
  forall lines width height out w h c out' rest,
    (List.length lines <= n)%nat ->
    validate lines width height out = Valid w h c out' rest ->
    exists used, lines = (used ++ c :: rest)%list.
Proof.
  induction n as [|n IH]; intros lines width height out w h c out' rest Hn.
  - destruct lines; [|simpl in Hn; lia].
    simpl. destruct ((width <? 3) || (height <? 3)); discriminate.
  - destruct lines as [|l1 lines].
    { simpl. destruct ((width <? 3) || (height <? 3)); discriminate. }
    simpl in Hn. simpl.
    destruct ((width <? 3) || (height <? 3)).
    + destruct (int l1) as [width'|].
      * destruct lines as [|l2 rest2]; [discriminate|].
        simpl in Hn.
        destruct (int l2) as [height'|]; intros H; apply IH in H; try lia;
          destruct H as [used ->]; now exists (l1 :: l2 :: used).
      * intros H; apply IH in H; try lia. destruct H as [used ->]. now exists (l1 :: used).
    + destruct (String.length l1 =? 1)%nat; simpl.
      * intros H. injection H as _ _ <- _ <-. now exists [].
      * intros H; apply IH in H; try lia. destruct H as [used ->]. now exists (l1 :: used).
Qed.

Lemma validate_extends_bounded (n : nat) :
  forall lines width height out,
    (List.length lines <= n)%nat ->
    (exists suffix, validated_output (validate lines width height out) = out ++ suffix) /\
    (forall e o, validate lines width height out = Invalid e o -> e = EOFError).
Proof.
  unfold print.
  induction n as [|n IH]; intros lines width height out Hn.
  - destruct lines; [|simpl in Hn; lia].
    simpl. unfold print. destruct ((width <? 3) || (height <? 3)); simpl.
    + split; [rewrite ?append_assoc; eauto | intros e o H; now injection H as <- _].
    + split; [rewrite ?append_assoc; eauto | intros e o H; now injection H as <- _].
  - destruct lines as [|l1 lines].
    { simpl. unfold print. destruct ((width <? 3) || (height <? 3)); simpl;
        (split; [rewrite ?append_assoc; eauto | intros e o H; now injection H as <- _]). }
    simpl in Hn. simpl. unfold print.
    destruct ((width <? 3) || (height <? 3)).
    + destruct (int l1) as [width'|].
      * destruct lines as [|l2 rest2].
        { simpl. split; [rewrite ?append_assoc; eauto | intros e o H; now injection H as <- _]. }
        simpl in Hn.
        destruct (int l2) as [height'|].
        -- match goal with |- context [validate rest2 ?a ?b ?o] =>
             destruct (IH rest2 a b o ltac:(lia)) as [[sfx E] He] end.
           split; [rewrite E, ?append_assoc; eauto | exact He].
        -- match goal with |- context [validate rest2 ?a ?b ?o] =>
             destruct (IH rest2 a b o ltac:(lia)) as [[sfx E] He] end.
           split; [rewrite E, ?append_assoc; eauto | exact He].
      * match goal with |- context [validate lines ?a ?b ?o] =>
          destruct (IH lines a b o ltac:(lia)) as [[sfx E] He] end.
        split; [rewrite E, ?append_assoc; eauto | exact He].
    + destruct (String.length l1 =? 1)%nat; simpl.
      * split; [rewrite ?append_assoc; eauto | discriminate].
      * match goal with |- context [validate lines ?a ?b ?o] =>
          destruct (IH lines a b o ltac:(lia)) as [[sfx E] He] end.
        split; [rewrite E, ?append_assoc; eauto | exact He].
Qed.

(** The rendering loop only adds to what was printed, whatever the
    string it draws with. *)
Lemma render_extends (width height : Z) (char out : string) :
  exists suffix, render width height char out = out ++ suffix.
Proof.
  unfold render, render_row, render_cell, print.
  set (piece := fun j i : Z => if border width height j i then char ++ EmptyString
                               else " " ++ EmptyString).
  rewrite (fold_left_same _
             (fun o j => o ++ (joined (map (piece j) (range width)) ++ nl))).
  - rewrite (fold_left_append (fun j => joined (map (piece j) (range width)) ++ nl)). eauto.
  - intros o j.
    rewrite (fold_left_same _ (fun o' i => o' ++ piece j i)).
    + rewrite (fold_left_append (piece j)). simpl. now rewrite append_assoc.
    + intros o' i. unfold piece. now destruct (border width height j i).
Qed.

(** X1.  Whenever [draw_rectangle] returns, whatever the arguments it was
    called with, it has drawn a hollow rectangle whose sizes are at least 3
    and whose character is a single character read from standard input,
    the last line it consumed; the lines after it are left unread. *)
Theorem draw_rectangle_returns_drawn (lines : list string) (width height : Z)
    (char out : string) (rest : list string) :
  draw_rectangle lines width height char = Returned out rest ->
  exists w h c used before drawn,
    lines = (used ++ c :: rest)%list /\
    3 <= w /\ 3 <= h /\ String.length c = 1%nat /\
    out = before ++ joined (map (fun l => l ++ nl) drawn) /\
    hollow w h c drawn.
Proof.
  unfold draw_rectangle.
  destruct (validate lines width height EmptyString) as [w h c before rest'|e o] eqn:Hv;
    [|discriminate].
  intros H. injection H as <- <-.
  destruct (validate_valid_bounded _ _ _ _ _ _ _ _ _ _ (le_n _) Hv) as (Hw & Hh & Hc).
  destruct (validate_reads_bounded _ _ _ _ _ _ _ _ _ _ (le_n _) Hv) as [used Hu].
  destruct (single_character c Hc) as [a ->].
  exists w, h, (String a EmptyString), used, before, (map (rect_line w h a) (range h)).
  repeat split; try assumption; try reflexivity.
  - apply render_appends.
  - apply rect_lines_hollow.
  - apply rect_lines_hollow.
Qed.

Lemma draw_rectangle_returns_drawn_witness :
  exists w h c used before drawn,
    ["2"; "9"; "5"; "3"; "ab"; "*"; "left"] = (used ++ c :: ["left"])%list /\
    3 <= w /\ 3 <= h /\ String.length c = 1%nat /\
    output_of (draw_rectangle ["2"; "9"; "5"; "3"; "ab"; "*"; "left"] 0 0 "x")
      = before ++ joined (map (fun l => l ++ nl) drawn) /\
    hollow w h c drawn.
Proof.
  apply (draw_rectangle_returns_drawn _ 0 0 "x"). reflexivity.
Defined.

(** What [int] refuses: a separator character that [str.strip] would
    remove, and a literal of more than 4300 digits. *)
Example int_refuses_separator : int (String "031" "5") = None /\ strip (String "031" "5") = "5".
Proof. split; reflexivity. Qed.

Example int_refuses_long_literal :
  int (string_of_list_ascii (repeat "9"%char 4301)) = None /\
  int (string_of_list_ascii (repeat "0"%char 4299 ++ ["7"%char])) = Some 7.
Proof. split; vm_compute; reflexivity. Qed.

(** X2.  Run on an input that starts with a width and a height of at least
    3 and a single character, the script draws the rectangle of these sizes
    with this character after its four messages, and leaves the rest of the
    input unread. *)
Theorem main_draws_requested (l1 l2 c : string) (rest : list string) (w h : Z) :
  int l1 = Some w -> int l2 = Some h -> 3 <= w -> 3 <= h -> String.length c = 1%nat ->
  main (l1 :: l2 :: c :: rest)
  = Returned (render w h c (msg_size ++ nl ++ prompt_width ++ prompt_height ++ prompt_char))
             rest.
Proof.
  intros H1 H2 Hw Hh Hc. unfold main, draw_rectangle.
  cbn [validate]. change ((0 <? 3) || (0 <? 3)) with true. cbv iota.
  rewrite H1, H2. cbn [validate].
  replace ((w <? 3) || (h <? 3)) with false
    by (symmetry; apply Bool.orb_false_iff; split; apply Z.ltb_ge; lia).
  destruct rest; cbn [validate];
    replace ((w <? 3) || (h <? 3)) with false
      by (symmetry; apply Bool.orb_false_iff; split; apply Z.ltb_ge; lia);
    rewrite Hc; reflexivity.
Qed.

Lemma main_draws_requested_witness :
  main ["4"; " 3 "; "#"; "more"]
  = Returned (render 4 3 "#" (msg_size ++ nl ++ prompt_width ++ prompt_height ++ prompt_char))
             ["more"].
Proof.
  apply main_draws_requested; [reflexivity | reflexivity | lia | lia | reflexivity].
Defined.

(** X3.  Whatever the input, the script starts by printing the size error
    and the prompt for the width, as it calls [draw_rectangle(0, 0, '')];
    and the only exception that leaves it is the [EOFError] of an exhausted
    input: a [ValueError] never does. *)
Theorem main_starts_with_size_error (lines : list string) :
  (exists suffix, output_of (main lines) = msg_size ++ nl ++ prompt_width ++ suffix) /\
  (forall e out, main lines = Raised e out -> e = EOFError).
Proof.
  unfold main, draw_rectangle.
  assert (Hstart : exists suffix,
             validated_output (validate lines 0 0 EmptyString)
             = msg_size ++ nl ++ prompt_width ++ suffix).
  { destruct lines as [|l1 lines]; cbn [validate];
      change ((0 <? 3) || (0 <? 3)) with true; cbv iota.
    - exists EmptyString. reflexivity.
    - unfold print at 1 2. cbn [append].
      destruct (int l1) as [w|].
      + destruct lines as [|l2 rest2].
        * exists prompt_height. reflexivity.
        * destruct (int l2) as [h|].
          -- match goal with |- context [validate rest2 ?a ?b ?o] =>
               destruct (validate_extends_bounded _ rest2 a b o (le_n _)) as [[sfx E] _] end.
             rewrite E. unfold print. cbn [append]. rewrite ?append_assoc.
             eexists. reflexivity.
          -- match goal with |- context [validate rest2 ?a ?b ?o] =>
               destruct (validate_extends_bounded _ rest2 a b o (le_n _)) as [[sfx E] _] end.
             rewrite E. unfold print. cbn [append]. rewrite ?append_assoc.
             eexists. reflexivity.
      + match goal with |- context [validate lines ?a ?b ?o] =>
          destruct (validate_extends_bounded _ lines a b o (le_n _)) as [[sfx E] _] end.
        rewrite E. unfold print. cbn [append]. rewrite ?append_assoc.
        eexists. reflexivity. }
  destruct (validate_extends_bounded _ lines 0 0 EmptyString (le_n _)) as [_ He].
  destruct (validate lines 0 0 EmptyString) as [w h c out rest|e out]; simpl in *.
  - split; [|discriminate].
    destruct Hstart as [sfx Hs]. destruct (render_extends w h c out) as [sfx' ->].
    rewrite Hs, ?append_assoc. eexists. reflexivity.
  - split; [assumption|]. intros e' o H. injection H as <- _. eapply He. reflexivity.
Qed.

(** X4.  In the size branch the width is assigned before the height is
    parsed: when the height entered is not a number, the new width stays
    and the height the function was called with remains in force.  Called
    with a width below 3 and a height of at least 3, then given a width of
    at least 3, a height that is not a number and a single character, the
    function draws with the new width and the old height. *)
Theorem draw_rectangle_keeps_width_on_bad_height (l1 l2 c char : string)
    (rest : list string) (width height w : Z) :
  width < 3 -> 3 <= height ->
  int l1 = Some w -> 3 <= w -> int l2 = None -> String.length c = 1%nat ->
  draw_rectangle (l1 :: l2 :: c :: rest) width height char
  = Returned (render w height c
                (msg_size ++ nl ++ prompt_width ++ prompt_height ++ msg_invalid ++ nl
                   ++ prompt_char))
             rest.
Proof.
  intros Hwidth Hheight H1 Hw H2 Hc. unfold draw_rectangle.
  cbn [validate].
  replace ((width <? 3) || (height <? 3)) with true
    by (symmetry; apply Bool.orb_true_iff; left; apply Z.ltb_lt; lia).
  rewrite H1, H2. cbn [validate].
  replace ((w <? 3) || (height <? 3)) with false
    by (symmetry; apply Bool.orb_false_iff; split; apply Z.ltb_ge; lia).
  destruct rest; cbn [validate];
    replace ((w <? 3) || (height <? 3)) with false
      by (symmetry; apply Bool.orb_false_iff; split; apply Z.ltb_ge; lia);
    rewrite Hc; reflexivity.
Qed.

Lemma draw_rectangle_keeps_width_on_bad_height_witness :
  draw_rectangle ["6"; "tall"; "o"] 0 4 "x"
  = Returned (render 6 4 "o"
                (msg_size ++ nl ++ prompt_width ++ prompt_height ++ msg_invalid ++ nl
                   ++ prompt_char))
             [].
Proof.
  apply draw_rectangle_keeps_width_on_bad_height;
    [lia | lia | reflexivity | lia | reflexivity | reflexivity].
Defined.

End DrawRectangleScript.

(** ** Q2: the table functions *)

Section EmployeeTable.
Import Py Q2.

Ltac run_db :=
  unfold create_table, insert_employee, try_except, bind, ret,
    print, modify, cursor, cursor_close, execute, commit, rollback, fetchall, next_fault,
    view, rows_of, set_txn, drop, log, new_row; simpl.

Ltac every_world w :=
  let emp := fresh "emp" in
  let tx := fresh "tx" in
  let cl := fresh "cl" in
  let fl := fresh "fl" in
  destruct w as [emp ? tx cl fl ? ?];
  run_db;
  destruct cl; simpl;
  [| destruct fl as [|[] [|[] [|[] fl]]]; destruct tx as [|[?|]|]; destruct emp; simpl ].

Ltac every_world_2 w :=
  let emp := fresh "emp" in
  let tx := fresh "tx" in
  let cl := fresh "cl" in
  let fl := fresh "fl" in
  destruct w as [emp ? tx cl fl ? ?];
  run_db;
  destruct cl; simpl;
  [| destruct fl as [|[] [|[] fl]]; destruct tx as [|[?|]|]; destruct emp; simpl ].

Ltac made_calls :=
  rewrite <- ?app_assoc; simpl; eexists; split; [reflexivity | simpl; intuition discriminate].

(** X5.  [create_table] never raises: it returns [True] or [False].  When
    it returns [True] the table exists, committed, with exactly the rows the
    session saw before (none if there was no table), and no transaction is
    left open; when it returns [False] the committed table is as before.
    In no case does it call [rollback]. *)
Theorem create_table_keeps_rows (w : world) :
  (exists b, fst (create_table w) = Ok b) /\
  (fst (create_table w) = Ok true ->
     employees (snd (create_table w)) = Some (rows_of (view w)) /\
     txn_state (snd (create_table w)) = NoTxn /\
     closed (snd (create_table w)) = false) /\
  (fst (create_table w) = Ok false ->
     employees (snd (create_table w)) = employees w) /\
  (exists made, calls (snd (create_table w)) = (calls w ++ made)%list /\
                ~ In CallRollback made).
Proof.
  every_world_2 w.
  all: split; [eauto|]; split; [intros H; try discriminate H; auto|];
    split; [intros H; try discriminate H; auto|]; made_calls.
Qed.

Lemma create_table_keeps_rows_witness :
  employees (snd (create_table
     {| employees := None; serial := 1; txn_state := NoTxn; closed := false;
        faults := []; calls := []; stdout := EmptyString |})) = Some [] /\
  txn_state (snd (create_table
     {| employees := None; serial := 1; txn_state := NoTxn; closed := false;
        faults := []; calls := []; stdout := EmptyString |})) = NoTxn /\
  closed (snd (create_table
     {| employees := None; serial := 1; txn_state := NoTxn; closed := false;
        faults := []; calls := []; stdout := EmptyString |})) = false.
Proof.
  destruct (create_table_keeps_rows
     {| employees := None; serial := 1; txn_state := NoTxn; closed := false;
        faults := []; calls := []; stdout := EmptyString |}) as (_ & H & _).
  apply H. reflexivity.
Defined.

(** X6.  Whenever [insert_employee] returns, with [True] or with [False],
    no transaction block is left open on the connection: the block was
    ended by its commit or by its rollback. *)
Theorem insert_employee_ends_transaction (name department : string) (w : world) (b : bool) :
  fst (insert_employee name department w) = Ok b ->
  txn_state (snd (insert_employee name department w)) = NoTxn.
Proof.
  every_world w.
  all: intros H; try discriminate H; reflexivity.
Qed.

Lemma insert_employee_ends_transaction_witness :
  txn_state (snd (insert_employee "Ann" "Ops"
     {| employees := None; serial := 1; txn_state := NoTxn; closed := false;
        faults := []; calls := []; stdout := EmptyString |})) = NoTxn.
Proof.
  apply (insert_employee_ends_transaction "Ann" "Ops" _ false). reflexivity.
Defined.

(** [create_table] has no rollback: a rejected statement leaves the block
    aborted behind a [False]. *)
Example create_table_leaves_aborted_block :
  let w := {| employees := None; serial := 1; txn_state := NoTxn; closed := false;
              faults := [ServerError "permission denied"]; calls := [];
              stdout := EmptyString |} in
  fst (create_table w) = Ok false /\ txn_state (snd (create_table w)) = Aborted.
Proof. split; reflexivity. Qed.





(** *** [display_all_employees] *)

Lemma print_writes (text : string) (w : world) :
  print text w = (Ok tt, set_stdout (stdout w ++ text ++ nl) w).
Proof. reflexivity. Qed.

Lemma for_each_print {A} (f : A -> string) (l : list A) (w : world) :
  for_each l (fun x => print (f x)) w
  = (Ok tt, set_stdout (stdout w ++ joined (map (fun x => f x ++ nl) l)) w).
Proof.
  revert w; induction l as [|x l IH]; intros w.
  - simpl. unfold ret, set_stdout. rewrite append_empty_r. now destruct w.
  - cbn [for_each map joined fold_right]. unfold bind. rewrite print_writes, IH.
    unfold set_stdout. cbn [stdout employees serial txn_state closed faults calls].
    now rewrite !append_assoc.
Qed.

Lemma joined_app (l l' : list string) : joined (l ++ l') = joined l ++ joined l'.
Proof.
  induction l as [|x l IH]; simpl; [reflexivity|]. now rewrite IH, append_assoc.
Qed.

(** What the table part of [display_all_employees] prints for [rows]. *)
Lemma table_printed (rows : list employee) (w : world) :
  (print (table_rule rows) ;;;
   print (table_header rows) ;;;
   print (table_rule rows) ;;;
   for_each rows (fun row => print (table_row rows row)) ;;;
   print (table_rule rows) ;;;
   print ("Total employees: " ++ str_int (Z.of_nat (List.length rows)) ++ nl)) w
  = (Ok tt,
     set_stdout (stdout w ++ joined (map (fun l => l ++ nl) (table_lines rows))) w).
Proof.
  unfold table_lines, bind. rewrite !print_writes.
  rewrite (for_each_print (table_row rows)). rewrite !print_writes.
  unfold set_stdout. cbn [stdout employees serial txn_state closed faults calls].
  f_equal. f_equal.
  rewrite !map_app, map_map. cbn [map app joined fold_right].
  match goal with |- context [fold_right append EmptyString ?l] =>
    change (fold_right append EmptyString l) with (joined l) end.
  rewrite joined_app. cbn [joined fold_right].
  now rewrite !append_assoc, ?append_empty_r.
Qed.

Lemma bind_run {A B} (m : DB A) (k : A -> DB B) (w : world) :
  bind m k w = match m w with
               | (Ok a, w') => k a w'
               | (Raise e, w') => (Raise e, w')
               end.
Proof. reflexivity. Qed.

(** What [display_all_employees] does after its SELECT. *)
Lemma display_run (w : world) :
  display_all_employees w =
  match (cursor ;;; execute SelectAll) w with
  | (Ok _, w1) =>
      match order_by_id (rows_of (view w1)) with
      | [] => (Ok tt, set_stdout (stdout w1 ++ "No employees found in the database." ++ nl)
                        (log CallCursorClose w1))
      | rows =>
          (Ok tt, set_stdout (stdout w1 ++ joined (map (fun l => l ++ nl) (table_lines rows)))
                    (log CallCursorClose w1))
      end
  | (Raise e, w1) =>
      (Ok tt, set_stdout (stdout w1 ++ ("ERROR: Failed to retrieve employees: " ++ error_text e)
                            ++ nl) w1)
  end.
Proof.
  unfold display_all_employees, try_except.
  rewrite !bind_run.
  destruct (cursor w) as [[[]|e] w0]; [|reflexivity].
  cbv beta iota. rewrite !bind_run.
  destruct (execute SelectAll w0) as [[[]|e] w1]; [|reflexivity].
  cbv beta iota. rewrite !bind_run. unfold fetchall at 1. cbv beta iota.
  rewrite !bind_run.
  assert (Hclose : cursor_close w1 = (Ok tt, log CallCursorClose w1)) by reflexivity.
  rewrite Hclose. cbv beta iota. unfold rows_of.
  destruct (view w1) as [rows0|].
  - destruct (order_by_id rows0) as [|r rows] eqn:E; [reflexivity|].
    rewrite table_printed. reflexivity.
  - reflexivity.
Qed.

Lemma select_frame (w : world) :
  employees (snd ((cursor ;;; execute SelectAll) w)) = employees w /\
  serial (snd ((cursor ;;; execute SelectAll) w)) = serial w /\
  exists made, calls (snd ((cursor ;;; execute SelectAll) w)) = (calls w ++ made)%list /\
               ~ In CallCommit made /\ ~ In CallRollback made.
Proof.
  every_world_2 w.
  all: split; [reflexivity|]; split; [reflexivity|];
    rewrite <- ?app_assoc; simpl; eexists; split; [reflexivity | simpl; intuition discriminate].
Qed.

(** X8.  [display_all_employees] never raises and never writes to the
    database: whatever the state of the connection and whatever the server
    answers, it returns, the committed table and the sequence are as before,
    and among the driver calls it makes there is no commit and no
    rollback. *)
Theorem display_all_employees_reads_only (w : world) :
  fst (display_all_employees w) = Ok tt /\
  employees (snd (display_all_employees w)) = employees w /\
  serial (snd (display_all_employees w)) = serial w /\
  exists made, calls (snd (display_all_employees w)) = (calls w ++ made)%list /\
               ~ In CallCommit made /\ ~ In CallRollback made.
Proof.
  rewrite display_run.
  destruct (select_frame w) as (He & Hs & made & Hc & Hnc & Hnr).
  destruct ((cursor ;;; execute SelectAll) w) as [[[]|e] w1]; simpl in He, Hs, Hc.
  - assert (Hmade : exists made', (calls w1 ++ [CallCursorClose])%list = (calls w ++ made')%list /\
                                  ~ In CallCommit made' /\ ~ In CallRollback made').
    { exists (made ++ [CallCursorClose])%list. rewrite Hc, app_assoc.
      split; [reflexivity|].
      split; intros H; apply in_app_or in H; destruct H as [H|[H|[]]];
        auto; discriminate H. }
    destruct (order_by_id (rows_of (view w1))); simpl; auto.
  - simpl. repeat split; try assumption. exists made. auto.
Qed.

Lemma select_answers (w : world) (rows0 : list employee) :
  closed w = false -> hd NoFault (faults w) = NoFault -> txn_state w <> Aborted ->
  view w = Some rows0 ->
  exists w1, (cursor ;;; execute SelectAll) w = (Ok tt, w1) /\
             view w1 = Some rows0 /\ stdout w1 = stdout w.
Proof.
  destruct w as [emp ser tx cl fl cs so]. unfold view. simpl.
  intros -> Hf Htx Hv. run_db.
  destruct fl as [|[] fl]; simpl in Hf; try discriminate Hf;
    destruct tx as [|[rows|]|]; try contradiction; simpl in Hv;
    try discriminate Hv; try (injection Hv as ->); subst; simpl;
    eexists; repeat split.
Qed.

Lemma insert_by_id_not_nil (r : employee) (l : list employee) : insert_by_id r l <> [].
Proof. destruct l; simpl; [discriminate|]. destruct (emp_id r <=? emp_id e); discriminate. Qed.

Lemma order_by_id_nil (l : list employee) : order_by_id l = [] -> l = [].
Proof.
  destruct l as [|x l]; [reflexivity|]. simpl. intros H. now apply insert_by_id_not_nil in H.
Qed.

Lemma string_length_app (a b : string) :
  String.length (a ++ b) = (String.length a + String.length b)%nat.
Proof. induction a as [|c a IH]; simpl; [reflexivity | now rewrite IH]. Qed.

Lemma repeat_string_length (c : ascii) (n : nat) :
  String.length (repeat_string (String c EmptyString) n) = n.
Proof. induction n as [|n IH]; simpl; [reflexivity | now rewrite IH]. Qed.

Lemma ljust_length (text : string) (width : nat) :
  (String.length text <= width)%nat -> String.length (ljust text width) = width.
Proof.
  intros H. unfold ljust. rewrite string_length_app, repeat_string_length. lia.
Qed.

Lemma max_of_ge (x : nat) (l : list nat) : In x l -> (x <= max_of l)%nat.
Proof.
  induction l as [|y l IH]; simpl; [contradiction|].
  intros [-> | H]; [lia|]. specialize (IH H). lia.
Qed.

Lemma table_header_length (rows : list employee) :
  String.length (table_header rows)
  = (id_width rows + name_width rows + dept_width rows + 6)%nat.
Proof.
  unfold table_header. rewrite !string_length_app.
  rewrite !ljust_length; [simpl; lia | | |]; unfold id_width, name_width, dept_width; lia.
Qed.

Lemma table_row_length (rows : list employee) (row : employee) :
  In row rows ->
  String.length (table_row rows row)
  = (id_width rows + name_width rows + dept_width rows + 6)%nat.
Proof.
  intros H. unfold table_row. rewrite !string_length_app.
  assert (H1 : (String.length (str_int (emp_id row)) <= id_width rows)%nat).
  { unfold id_width.
    pose proof (max_of_ge _ _ (in_map (fun r => String.length (str_int (emp_id r))) _ _ H)).
    lia. }
  assert (H2 : (String.length (emp_name row) <= name_width rows)%nat).
  { unfold name_width.
    pose proof (max_of_ge _ _ (in_map (fun r => String.length (emp_name r)) _ _ H)). lia. }
  assert (H3 : (String.length (emp_department row) <= dept_width rows)%nat).
  { unfold dept_width.
    pose proof (max_of_ge _ _ (in_map (fun r => String.length (emp_department r)) _ _ H)).
    lia. }
  rewrite !ljust_length by assumption. simpl. lia.
Qed.

(** X9.  When the SELECT goes through and there are rows, what
    [display_all_employees] prints is the table: a rule, the header, a rule,
    one line per row, a rule and the total.  Every row line has exactly the
    length of the header line, so the columns are aligned whatever the
    lengths of the values; the rules are 4 characters longer than these
    lines. *)
Theorem display_prints_aligned_table (w : world) (rows0 : list employee) :
  closed w = false -> hd NoFault (faults w) = NoFault -> txn_state w <> Aborted ->
  view w = Some rows0 -> rows0 <> [] ->
  stdout (snd (display_all_employees w))
  = stdout w ++ joined (map (fun l => l ++ nl) (table_lines (order_by_id rows0))) /\
  (forall row, In row (order_by_id rows0) ->
     String.length (table_row (order_by_id rows0) row)
     = String.length (table_header (order_by_id rows0))) /\
  String.length (table_rule (order_by_id rows0))
  = (String.length (table_header (order_by_id rows0)) + 4)%nat.
Proof.
  intros Hc Hf Htx Hv Hrows.
  destruct (select_answers w rows0 Hc Hf Htx Hv) as (w1 & Hsel & Hv1 & Hout).
  rewrite display_run, Hsel, Hv1. unfold rows_of.
  split; [|split].
  - destruct (order_by_id rows0) as [|r rows] eqn:E.
    + apply order_by_id_nil in E. contradiction.
    + simpl. now rewrite Hout.
  - intros row Hin. now rewrite table_row_length, table_header_length.
  - rewrite table_header_length. unfold table_rule. rewrite repeat_string_length. lia.
Qed.

Lemma display_prints_aligned_table_witness :
  stdout (snd (display_all_employees
     {| employees := Some [Build_employee 12 "Bob" "Engineering"; Build_employee 3 "Alexandra" "Ops"];
        serial := 13; txn_state := NoTxn; closed := false; faults := []; calls := [];
        stdout := EmptyString |}))
  = EmptyString ++ joined (map (fun l => l ++ nl) (table_lines (order_by_id
      [Build_employee 12 "Bob" "Engineering"; Build_employee 3 "Alexandra" "Ops"]))) /\
  (forall row, In row (order_by_id
      [Build_employee 12 "Bob" "Engineering"; Build_employee 3 "Alexandra" "Ops"]) ->
     String.length (table_row (order_by_id
      [Build_employee 12 "Bob" "Engineering"; Build_employee 3 "Alexandra" "Ops"]) row)
     = String.length (table_header (order_by_id
      [Build_employee 12 "Bob" "Engineering"; Build_employee 3 "Alexandra" "Ops"]))) /\
  String.length (table_rule (order_by_id
      [Build_employee 12 "Bob" "Engineering"; Build_employee 3 "Alexandra" "Ops"]))
  = (String.length (table_header (order_by_id
      [Build_employee 12 "Bob" "Engineering"; Build_employee 3 "Alexandra" "Ops"])) + 4)%nat.
Proof.
  apply (display_prints_aligned_table
     {| employees := Some [Build_employee 12 "Bob" "Engineering"; Build_employee 3 "Alexandra" "Ops"];
        serial := 13; txn_state := NoTxn; closed := false; faults := []; calls := [];
        stdout := EmptyString |});
    [reflexivity | reflexivity | discriminate | reflexivity | discriminate].
Defined.

(** X10.  When the SELECT goes through and the table is empty,
    [display_all_employees] prints the one line
    [No employees found in the database.] and nothing else. *)
Theorem display_empty_table (w : world) :
  closed w = false -> hd NoFault (faults w) = NoFault -> txn_state w <> Aborted ->
  view w = Some [] ->
  stdout (snd (display_all_employees w))
  = stdout w ++ "No employees found in the database." ++ nl.
Proof.
  intros Hc Hf Htx Hv.
  destruct (select_answers w [] Hc Hf Htx Hv) as (w1 & Hsel & Hv1 & Hout).
  rewrite display_run, Hsel, Hv1. simpl. now rewrite Hout.
Qed.

Lemma display_empty_table_witness :
  stdout (snd (display_all_employees fresh_world))
  = stdout fresh_world ++ "No employees found in the database." ++ nl.
Proof.
  apply display_empty_table; [reflexivity | reflexivity | discriminate | reflexivity].
Defined.

End EmployeeTable.

(** ** Q2: the process around the table *)

Section EmployeeScript.
Import Py Q2.

Lemma quiet_refl (w : world) : quiet w w.
Proof. now destruct w. Qed.

Lemma quiet_set_stdout (out : string) (w w' : world) : quiet w w' -> quiet w (set_stdout out w').
Proof. unfold quiet. now destruct w'. Qed.

Ltac run_process :=
  unfold get_user_input, input, sys_exit, lift, write, bind, ret, raise, print, modify,
    with_session, quiet, set_stdout; simpl.

Lemma bind_runs {St Ex A B} (m : M St Ex A) (k : A -> M St Ex B) (x : St) :
  bind m k x = match m x with
               | (Ok a, x') => k a x'
               | (Raise e, x') => (Raise e, x')
               end.
Proof. reflexivity. Qed.

Lemma lift_run {A} (m : DB A) (q : process) :
  lift m q = match m (session q) with
             | (Ok a, w) => (Ok a, with_session w q)
             | (Raise e, w) => (Raise (DbError e), with_session w q)
             end.
Proof. reflexivity. Qed.

Lemma session_with_session (w : world) (p : process) : session (with_session w p) = w.
Proof. reflexivity. Qed.

Lemma with_session_twice (w w' : world) (p : process) :
  with_session w' (with_session w p) = with_session w' p.
Proof. reflexivity. Qed.

Lemma stdout_set_stdout (out : string) (w : world) : stdout (set_stdout out w) = out.
Proof. reflexivity. Qed.

Lemma set_stdout_twice (out out' : string) (w : world) :
  set_stdout out' (set_stdout out w) = set_stdout out' w.
Proof. reflexivity. Qed.

Ltac tidy :=
  rewrite ?session_with_session, ?with_session_twice, ?stdout_set_stdout, ?set_stdout_twice.

Lemma get_env_variable_set (name value : string) (p : process) :
  getenv name (os_environ p) = Some value -> get_env_variable name p = (Ok value, p).
Proof. intros H. unfold get_env_variable. now rewrite H. Qed.

Lemma get_env_variable_missing (name : string) (p : process) :
  getenv name (os_environ p) = None ->
  exists p', get_env_variable name p = (Raise (SystemExit 1), p') /\
             quiet (session p) (session p') /\ connections p' = connections p.
Proof.
  intros H. unfold get_env_variable. rewrite H.
  do 7 (rewrite bind_runs, lift_run, print_writes; cbv beta iota; tidy).
  eexists. split; [reflexivity|].
  split; [apply quiet_set_stdout, quiet_refl | reflexivity].
Qed.

Ltac missing p name E :=
  let p' := fresh "p'" in
  let Hq := fresh "Hq" in
  let Hc := fresh "Hc" in
  right; rewrite bind_runs;
  destruct (get_env_variable_missing name p E) as (p' & -> & Hq & Hc);
  cbn [fst snd]; split;
  [exists name; split; [unfold required_variables; simpl; tauto | exact E] | auto].

(** The three ways [connect_to_database] ends. *)
Lemma connect_to_database_run (p : process) :
  (exists db_host db_port db_name db_user db_password,
     getenv "DB_HOST" (os_environ p) = Some db_host /\
     getenv "DB_PORT" (os_environ p) = Some db_port /\
     getenv "DB_NAME" (os_environ p) = Some db_name /\
     getenv "DB_USER" (os_environ p) = Some db_user /\
     getenv "DB_PASSWORD" (os_environ p) = Some db_password /\
     connections (snd (connect_to_database p))
     = (connections p ++ [ {| arg_host := db_host; arg_port := db_port;
                              arg_database := db_name; arg_user := db_user;
                              arg_password := db_password |} ])%list /\
     employees (session (snd (connect_to_database p))) = employees (session p) /\
     serial (session (snd (connect_to_database p))) = serial (session p) /\
     match connect_fault p with
     | None => fst (connect_to_database p) = Ok (Some Connection) /\
               closed (session (snd (connect_to_database p))) = false /\
               txn_state (session (snd (connect_to_database p))) = NoTxn
     | Some _ => fst (connect_to_database p) = Ok None
     end) \/
  ((exists v, In v required_variables /\ getenv v (os_environ p) = None) /\
   fst (connect_to_database p) = Raise (SystemExit 1) /\
   connections (snd (connect_to_database p)) = connections p /\
   quiet (session p) (session (snd (connect_to_database p)))).
Proof.
  unfold connect_to_database, except_Error.
  destruct (getenv "DB_HOST" (os_environ p)) as [db_host|] eqn:E1; [|missing p "DB_HOST" E1].
  rewrite bind_runs, (get_env_variable_set _ _ _ E1); cbv beta iota.
  destruct (getenv "DB_PORT" (os_environ p)) as [db_port|] eqn:E2; [|missing p "DB_PORT" E2].
  rewrite bind_runs, (get_env_variable_set _ _ _ E2); cbv beta iota.
  destruct (getenv "DB_NAME" (os_environ p)) as [db_name|] eqn:E3; [|missing p "DB_NAME" E3].
  rewrite bind_runs, (get_env_variable_set _ _ _ E3); cbv beta iota.
  destruct (getenv "DB_USER" (os_environ p)) as [db_user|] eqn:E4; [|missing p "DB_USER" E4].
  rewrite bind_runs, (get_env_variable_set _ _ _ E4); cbv beta iota.
  destruct (getenv "DB_PASSWORD" (os_environ p)) as [db_password|] eqn:E5;
    [|missing p "DB_PASSWORD" E5].
  rewrite bind_runs, (get_env_variable_set _ _ _ E5); cbv beta iota.
  left. exists db_host, db_port, db_name, db_user, db_password.
  do 5 (split; [reflexivity|]).
  destruct p as [[emp ser tx cl fl cs so] env inp cf conns].
  destruct cf as [msg|]; cbn; auto 10.
Qed.

(** X11.  When one of the five variables DB_HOST, DB_PORT, DB_NAME, DB_USER,
    DB_PASSWORD is not set, [connect_to_database] does not return [None]:
    the process exits with status 1, [psycopg2.connect] has not been
    called, and nothing has happened but printing. *)
Theorem connect_to_database_missing_variable (p : process) (v : string) :
  In v required_variables -> getenv v (os_environ p) = None ->
  fst (connect_to_database p) = Raise (SystemExit 1) /\
  connections (snd (connect_to_database p)) = connections p /\
  quiet (session p) (session (snd (connect_to_database p))).
Proof.
  intros Hin Hv.
  destruct (connect_to_database_run p)
    as [(h & po & n & u & pw & E1 & E2 & E3 & E4 & E5 & _)|(_ & H)]; [|exact H].
  unfold required_variables in Hin. simpl in Hin.
  destruct Hin as [<-|[<-|[<-|[<-|[<-|[]]]]]]; congruence.
Qed.

Lemma connect_to_database_missing_variable_witness :
  fst (connect_to_database
         {| session := fresh_world;
            os_environ := [("DB_HOST", "db"); ("DB_PORT", "5432"); ("DB_NAME", "hr");
                           ("DB_PASSWORD", "secret")];
            stdin := []; connect_fault := None; connections := [] |})
  = Raise (SystemExit 1).
Proof.
  apply (connect_to_database_missing_variable _ "DB_USER"); [simpl; tauto | reflexivity].
Defined.

(** X12.  When the five variables are set, [connect_to_database] calls
    [psycopg2.connect] once, with each value in its own argument: host,
    port, database, user, password.  It returns the connection, open and
    outside any transaction, when the call succeeds, and [None], without
    exiting, when the call raises a driver error. *)
Theorem connect_to_database_uses_environment (p : process)
    (db_host db_port db_name db_user db_password : string) :
  getenv "DB_HOST" (os_environ p) = Some db_host ->
  getenv "DB_PORT" (os_environ p) = Some db_port ->
  getenv "DB_NAME" (os_environ p) = Some db_name ->
  getenv "DB_USER" (os_environ p) = Some db_user ->
  getenv "DB_PASSWORD" (os_environ p) = Some db_password ->
  connections (snd (connect_to_database p))
  = (connections p ++ [ {| arg_host := db_host; arg_port := db_port;
                           arg_database := db_name; arg_user := db_user;
                           arg_password := db_password |} ])%list /\
  (connect_fault p = None ->
     fst (connect_to_database p) = Ok (Some Connection) /\
     closed (session (snd (connect_to_database p))) = false /\
     txn_state (session (snd (connect_to_database p))) = NoTxn) /\
  (forall msg, connect_fault p = Some msg -> fst (connect_to_database p) = Ok None).
Proof.
  intros E1 E2 E3 E4 E5.
  destruct (connect_to_database_run p)
    as [(h & po & n & u & pw & F1 & F2 & F3 & F4 & F5 & Hc & _ & _ & Hr)
       |((v & Hin & Hv) & _)].
  - rewrite E1 in F1. rewrite E2 in F2. rewrite E3 in F3. rewrite E4 in F4.
    rewrite E5 in F5.
    injection F1 as <-. injection F2 as <-. injection F3 as <-. injection F4 as <-.
    injection F5 as <-.
    split; [assumption|].
    destruct (connect_fault p) as [msg|].
    + split; [discriminate|]. intros msg' _. assumption.
    + split; [intros _; assumption | discriminate].
  - unfold required_variables in Hin. simpl in Hin.
    destruct Hin as [<-|[<-|[<-|[<-|[<-|[]]]]]]; congruence.
Qed.

Lemma connect_to_database_uses_environment_witness :
  connections (snd (connect_to_database
     {| session := fresh_world;
        os_environ := [("DB_PASSWORD", "secret"); ("DB_USER", "ann"); ("DB_NAME", "hr");
                       ("DB_PORT", "5432"); ("DB_HOST", "db")];
        stdin := []; connect_fault := Some "timeout"; connections := [] |}))
  = ([] ++ [ {| arg_host := "db"; arg_port := "5432"; arg_database := "hr";
                arg_user := "ann"; arg_password := "secret" |} ])%list /\
  (connect_fault
     {| session := fresh_world;
        os_environ := [("DB_PASSWORD", "secret"); ("DB_USER", "ann"); ("DB_NAME", "hr");
                       ("DB_PORT", "5432"); ("DB_HOST", "db")];
        stdin := []; connect_fault := Some "timeout"; connections := [] |} = None ->
     fst (connect_to_database
     {| session := fresh_world;
        os_environ := [("DB_PASSWORD", "secret"); ("DB_USER", "ann"); ("DB_NAME", "hr");
                       ("DB_PORT", "5432"); ("DB_HOST", "db")];
        stdin := []; connect_fault := Some "timeout"; connections := [] |})
       = Ok (Some Connection) /\
     closed (session (snd (connect_to_database
     {| session := fresh_world;
        os_environ := [("DB_PASSWORD", "secret"); ("DB_USER", "ann"); ("DB_NAME", "hr");
                       ("DB_PORT", "5432"); ("DB_HOST", "db")];
        stdin := []; connect_fault := Some "timeout"; connections := [] |}))) = false /\
     txn_state (session (snd (connect_to_database
     {| session := fresh_world;
        os_environ := [("DB_PASSWORD", "secret"); ("DB_USER", "ann"); ("DB_NAME", "hr");
                       ("DB_PORT", "5432"); ("DB_HOST", "db")];
        stdin := []; connect_fault := Some "timeout"; connections := [] |}))) = NoTxn) /\
  (forall msg, connect_fault
     {| session := fresh_world;
        os_environ := [("DB_PASSWORD", "secret"); ("DB_USER", "ann"); ("DB_NAME", "hr");
                       ("DB_PORT", "5432"); ("DB_HOST", "db")];
        stdin := []; connect_fault := Some "timeout"; connections := [] |} = Some msg ->
     fst (connect_to_database
     {| session := fresh_world;
        os_environ := [("DB_PASSWORD", "secret"); ("DB_USER", "ann"); ("DB_NAME", "hr");
                       ("DB_PORT", "5432"); ("DB_HOST", "db")];
        stdin := []; connect_fault := Some "timeout"; connections := [] |}) = Ok None).
Proof.
  apply connect_to_database_uses_environment; reflexivity.
Defined.

(** X13.  [get_user_input] reads two lines and strips them.  It returns
    the pair only when both are non-empty after stripping; when one of them
    is empty or blank the process exits with status 1, after both lines
    were read; it touches nothing but the console. *)
Theorem get_user_input_nonempty (p : process) :
  (forall name department,
     fst (get_user_input p) = Ok (name, department) ->
     name <> EmptyString /\ department <> EmptyString /\
     exists l1 l2, stdin p = l1 :: l2 :: stdin (snd (get_user_input p)) /\
                   name = strip l1 /\ department = strip l2) /\
  (forall l1 l2 rest,
     stdin p = l1 :: l2 :: rest ->
     strip l1 = EmptyString \/ strip l2 = EmptyString ->
     fst (get_user_input p) = Raise (SystemExit 1) /\
     stdin (snd (get_user_input p)) = rest) /\
  quiet (session p) (session (snd (get_user_input p))).
Proof.
  destruct p as [[emp ser tx cl fl cs so] env inp cf conns]. run_process.
  destruct inp as [|l1 [|l2 rest]]; simpl.
  - split; [discriminate|]. split; [discriminate | reflexivity].
  - split; [discriminate|]. split; [discriminate | reflexivity].
  - destruct (strip l1) as [|a n] eqn:E1; simpl.
    + split; [discriminate|]. split; [|reflexivity].
      intros ? ? ? H _. injection H as <- <- <-. auto.
    + destruct (strip l2) as [|b d] eqn:E2; simpl.
      * split; [discriminate|]. split; [|reflexivity].
        intros ? ? ? H _. injection H as <- <- <-. auto.
      * split; [|split; [|reflexivity]].
        -- intros name department H. injection H as <- <-.
           split; [discriminate|]. split; [discriminate|].
           exists l1, l2. rewrite E1, E2. auto.
        -- intros ? ? ? H [Hb|Hb]; injection H as <- <- <-; congruence.
Qed.

Lemma get_user_input_nonempty_witness :
  fst (get_user_input
         {| session := fresh_world; os_environ := []; stdin := ["Ann"; "   "; "x"];
            connect_fault := None; connections := [] |}) = Raise (SystemExit 1) /\
  stdin (snd (get_user_input
         {| session := fresh_world; os_environ := []; stdin := ["Ann"; "   "; "x"];
            connect_fault := None; connections := [] |})) = ["x"].
Proof.
  destruct (get_user_input_nonempty
         {| session := fresh_world; os_environ := []; stdin := ["Ann"; "   "; "x"];
            connect_fault := None; connections := [] |}) as (_ & H & _).
  apply (H "Ann" "   " ["x"]); [reflexivity | right; reflexivity].
Defined.

(** *** [main] *)

Lemma quiet_fields (w w' : world) :
  quiet w w' ->
  employees w' = employees w /\ serial w' = serial w /\ txn_state w' = txn_state w /\
  closed w' = closed w /\ faults w' = faults w /\ calls w' = calls w.
Proof. unfold quiet. intros <-. now destruct w'. Qed.

(** The banner, then the connection. *)
Lemma main_run (p : process) :
  exists p1,
    quiet (session p) (session p1) /\ os_environ p1 = os_environ p /\
    connect_fault p1 = connect_fault p /\
    main p = match connect_to_database p1 with
             | (Ok (Some Connection), p2) => try_finally main_try main_finally p2
             | (Ok None, p2) => (Raise (SystemExit 1), p2)
             | (Raise e, p2) => (Raise e, p2)
             end.
Proof.
  pose proof (eq_refl (main p)) as H. unfold main at 2 in H.
  do 4 (rewrite bind_runs, lift_run, print_writes in H; cbv beta iota in H;
        rewrite ?session_with_session, ?with_session_twice, ?stdout_set_stdout,
          ?set_stdout_twice in H).
  rewrite bind_runs in H.
  match type of H with context [connect_to_database ?q] => exists q end.
  split; [apply quiet_set_stdout, quiet_refl|].
  split; [reflexivity|]. split; [reflexivity|].
  rewrite H.
  match goal with |- context [connect_to_database ?q] =>
    destruct (connect_to_database q) as [[[[]|]|e] p2] end; reflexivity.
Qed.

Lemma connect_to_database_connects (p : process)
    (db_host db_port db_name db_user db_password : string) :
  getenv "DB_HOST" (os_environ p) = Some db_host ->
  getenv "DB_PORT" (os_environ p) = Some db_port ->
  getenv "DB_NAME" (os_environ p) = Some db_name ->
  getenv "DB_USER" (os_environ p) = Some db_user ->
  getenv "DB_PASSWORD" (os_environ p) = Some db_password ->
  connect_fault p = None ->
  exists p2, connect_to_database p = (Ok (Some Connection), p2).
Proof.
  intros E1 E2 E3 E4 E5 Hcf.
  destruct (connect_to_database_run p)
    as [(h & po & n & u & pw & _ & _ & _ & _ & _ & _ & _ & _ & Hr)|((v & Hin & Hv) & _)].
  - rewrite Hcf in Hr. destruct Hr as [Hr _].
    destruct (connect_to_database p) as [r p2]. simpl in Hr. subst r. eauto.
  - unfold required_variables in Hin. simpl in Hin.
    destruct Hin as [<-|[<-|[<-|[<-|[<-|[]]]]]]; congruence.
Qed.

Lemma main_finally_closes {A} (body : Proc A) (q : process) :
  closed (session (snd (try_finally body main_finally q))) = true /\
  exists before,
    stdout (session (snd (try_finally body main_finally q)))
    = before ++ " Database connection closed." ++ nl.
Proof.
  unfold try_finally. destruct (body q) as [r q'].
  unfold main_finally, close, lift, bind, print, modify, drop, with_session. simpl.
  split; [reflexivity | eauto].
Qed.

(** X14.  Once the connection is made, [main] closes it before it ends,
    whatever happens in between: a refused statement, an exit on blank
    input, an exhausted input, an error that escapes.  The last line
    printed is then [ Database connection closed.]. *)
Theorem main_closes_connection (p : process)
    (db_host db_port db_name db_user db_password : string) :
  getenv "DB_HOST" (os_environ p) = Some db_host ->
  getenv "DB_PORT" (os_environ p) = Some db_port ->
  getenv "DB_NAME" (os_environ p) = Some db_name ->
  getenv "DB_USER" (os_environ p) = Some db_user ->
  getenv "DB_PASSWORD" (os_environ p) = Some db_password ->
  connect_fault p = None ->
  closed (session (snd (main p))) = true /\
  exists before,
    stdout (session (snd (main p))) = before ++ " Database connection closed." ++ nl.
Proof.
  intros E1 E2 E3 E4 E5 Hc.
  destruct (main_run p) as (p1 & _ & Henv & Hcf & ->).
  rewrite <- Henv in E1, E2, E3, E4, E5. rewrite <- Hcf in Hc.
  destruct (connect_to_database_connects p1 _ _ _ _ _ E1 E2 E3 E4 E5 Hc) as [p2 ->].
  apply main_finally_closes.
Qed.

Lemma main_closes_connection_witness :
  closed (session (snd (main
     {| session := {| employees := None; serial := 1; txn_state := NoTxn; closed := true;
                      faults := [ConnectionLost "gone"]; calls := []; stdout := EmptyString |};
        os_environ := [("DB_HOST", "db"); ("DB_PORT", "5432"); ("DB_NAME", "hr");
                       ("DB_USER", "ann"); ("DB_PASSWORD", "secret")];
        stdin := []; connect_fault := None; connections := [] |}))) = true /\
  exists before,
    stdout (session (snd (main
     {| session := {| employees := None; serial := 1; txn_state := NoTxn; closed := true;
                      faults := [ConnectionLost "gone"]; calls := []; stdout := EmptyString |};
        os_environ := [("DB_HOST", "db"); ("DB_PORT", "5432"); ("DB_NAME", "hr");
                       ("DB_USER", "ann"); ("DB_PASSWORD", "secret")];
        stdin := []; connect_fault := None; connections := [] |})))
    = before ++ " Database connection closed." ++ nl.
Proof.
  apply (main_closes_connection _ "db" "5432" "hr" "ann" "secret"); reflexivity.
Defined.

Ltac run_table :=
  unfold create_table, insert_employee, try_except, bind, ret,
    print, modify, cursor, cursor_close, execute, commit, rollback, next_fault,
    view, rows_of, set_txn, drop, log, new_row; simpl.

Lemma create_table_cases (w : world) :
  txn_state w = NoTxn ->
  (fst (create_table w) = Ok true /\
   employees (snd (create_table w)) = Some (rows_of (employees w)) /\
   txn_state (snd (create_table w)) = NoTxn /\
   serial (snd (create_table w)) = serial w) \/
  (fst (create_table w) = Ok false /\ employees (snd (create_table w)) = employees w).
Proof.
  destruct w as [emp ser tx cl fl cs so]. simpl. intros ->. run_table.
  destruct cl; simpl; [now right|].
  destruct fl as [|[] [|[] fl]]; destruct emp; simpl; auto.
Qed.

Lemma insert_employee_cases (name department : string) (w : world) (rows : list employee) :
  txn_state w = NoTxn -> employees w = Some rows ->
  (fst (insert_employee name department w) = Ok true /\
   employees (snd (insert_employee name department w))
   = Some (rows ++ [new_row name department w])%list) \/
  (fst (insert_employee name department w) <> Ok true /\
   employees (snd (insert_employee name department w)) = Some rows).
Proof.
  destruct w as [emp ser tx cl fl cs so]. simpl. intros -> ->. run_table.
  destruct cl; simpl; [right; split; [discriminate | reflexivity]|].
  destruct fl as [|[] [|[] [|[] fl]]]; simpl; auto;
    right; (split; [discriminate | reflexivity]).
Qed.

Lemma display_all_employees_returns (w : world) :
  fst (display_all_employees w) = Ok tt /\
  employees (snd (display_all_employees w)) = employees w.
Proof.
  rewrite display_run. destruct (select_frame w) as (He & _).
  destruct ((cursor ;;; execute SelectAll) w) as [[[]|e] w1]; simpl in He.
  - destruct (order_by_id (rows_of (view w1))); simpl; auto.
  - simpl. auto.
Qed.

Lemma get_user_input_cases (p : process) :
  quiet (session p) (session (snd (get_user_input p))) /\
  ((exists name department,
      fst (get_user_input p) = Ok (name, department) /\
      name <> EmptyString /\ department <> EmptyString) \/
   (exists e, fst (get_user_input p) = Raise e)).
Proof.
  destruct p as [[emp ser tx cl fl cs so] env inp cf conns]. run_process.
  destruct inp as [|l1 [|l2 rest]]; simpl; [eauto | eauto |].
  destruct (strip l1) as [|a n]; simpl; [eauto|].
  destruct (strip l2) as [|b d]; simpl; [eauto|].
  split; [reflexivity|]. left. do 2 eexists. split; [reflexivity|]. split; discriminate.
Qed.

(** What the [try] block of [main] does to the committed table. *)
Lemma main_try_table (q : process) :
  txn_state (session q) = NoTxn ->
  (fst (main_try q) = Ok tt /\
   exists name department,
     name <> EmptyString /\ department <> EmptyString /\
     employees (session (snd (main_try q)))
     = Some (rows_of (employees (session q))
               ++ [ {| emp_id := serial (session q); emp_name := name;
                       emp_department := department |} ])%list) \/
  (fst (main_try q) <> Ok tt /\
   (employees (session (snd (main_try q))) = employees (session q) \/
    employees (session (snd (main_try q))) = Some (rows_of (employees (session q))))).
Proof.
  intros Htx. unfold main_try. rewrite bind_runs, lift_run.
  destruct (create_table_cases (session q) Htx) as [(Hr & He & Ht & Hs)|(Hr & He)];
    destruct (create_table (session q)) as [r1 w1]; simpl in *; subst r1; simpl.
  2: { right. split; [discriminate | now left]. }
  rewrite bind_runs.
  pose proof (get_user_input_cases (with_session w1 q)) as [Hq Hin].
  apply quiet_fields in Hq. destruct Hq as (Qe & Qs & Qt & _).
  destruct (get_user_input (with_session w1 q)) as [r2 q2]; simpl in *.
  destruct Hin as [(name & department & -> & Hn & Hd)|[e ->]].
  2: { right. cbn [fst snd]. split; [discriminate|]. right. congruence. }
  rewrite bind_runs, lift_run.
  assert (Htx2 : txn_state (session q2) = NoTxn) by congruence.
  assert (Hemp2 : employees (session q2) = Some (rows_of (employees (session q))))
    by congruence.
  destruct (insert_employee_cases name department (session q2) _ Htx2 Hemp2)
    as [(Hr & He')|(Hr & He')];
    destruct (insert_employee name department (session q2)) as [r3 w3]; simpl in *.
  - subst r3. simpl. rewrite bind_runs, lift_run, print_writes. cbv beta iota.
    rewrite bind_runs, lift_run, print_writes. cbv beta iota. rewrite lift_run.
    match goal with |- context [display_all_employees ?w] =>
      destruct (display_all_employees_returns w) as [Hd1 Hd2];
      destruct (display_all_employees w) as [r4 w4] end.
    simpl in *. subst r4. simpl. left. split; [reflexivity|].
    exists name, department. split; [assumption|]. split; [assumption|].
    rewrite Hd2, He'. unfold new_row. now rewrite Qs, Hs.
  - right. destruct r3 as [[]|e]; simpl.
    + now destruct Hr.
    + split; [discriminate|]. right. assumption.
    + split; [discriminate|]. right. assumption.
Qed.

Lemma connect_to_database_table (p : process) :
  employees (session (snd (connect_to_database p))) = employees (session p) /\
  serial (session (snd (connect_to_database p))) = serial (session p) /\
  (forall c, fst (connect_to_database p) = Ok (Some c) ->
     txn_state (session (snd (connect_to_database p))) = NoTxn).
Proof.
  destruct (connect_to_database_run p)
    as [(h & po & n & u & pw & _ & _ & _ & _ & _ & _ & He & Hs & Hr)|(_ & Hr & _ & Hq)].
  - split; [assumption|]. split; [assumption|].
    intros c Hc. destruct (connect_fault p); [congruence | tauto].
  - apply quiet_fields in Hq. destruct Hq as (He & Hs & _).
    split; [assumption|]. split; [assumption|]. intros c Hc. congruence.
Qed.

Lemma main_finally_table {A} (body : Proc A) (q : process) :
  employees (session (snd (try_finally body main_finally q)))
  = employees (session (snd (body q))) /\
  fst (try_finally body main_finally q) = fst (body q).
Proof.
  unfold try_finally. destruct (body q) as [r q'].
  unfold main_finally, close, lift, bind, print, modify, drop, with_session. simpl. auto.
Qed.

(** X15.  [main] returns normally exactly when it has added a row: the
    committed table is then the old one (empty if it did not exist) with one
    row added at the end, holding a non-empty name and department and the
    next value of the sequence.  In every other case (a missing variable, a
    failed connection, a refused statement, blank or missing input, an
    error that escapes) no row is added and none is lost: the table is as
    before, or was created empty. *)
Theorem main_adds_one_row_or_none (p : process) :
  (fst (main p) = Ok tt ->
   exists name department,
     name <> EmptyString /\ department <> EmptyString /\
     employees (session (snd (main p)))
     = Some (rows_of (employees (session p))
               ++ [ {| emp_id := serial (session p); emp_name := name;
                       emp_department := department |} ])%list) /\
  (fst (main p) <> Ok tt ->
   employees (session (snd (main p))) = employees (session p) \/
   employees (session (snd (main p))) = Some (rows_of (employees (session p)))).
Proof.
  destruct (main_run p) as (p1 & Hq & _ & _ & ->).
  apply quiet_fields in Hq. destruct Hq as (Qe & Qs & _).
  destruct (connect_to_database_table p1) as (Ce & Cs & Ct).
  destruct (connect_to_database p1) as [[[[]|]|e] p2]; simpl in *.
  - specialize (Ct Connection eq_refl).
    destruct (main_finally_table main_try p2) as [-> ->].
    rewrite <- Qe, <- Qs, <- Ce, <- Cs.
    destruct (main_try_table p2 Ct) as [(Hr & Hrow)|(Hr & Hrow)].
    + split; [intros _; assumption | intros H; contradiction].
    + split; [intros H; contradiction | intros _; assumption].
  - split; [discriminate | intros _; left; congruence].
  - split; [discriminate | intros _; left; congruence].
Qed.

Lemma main_adds_one_row_or_none_witness :
  exists name department,
    name <> EmptyString /\ department <> EmptyString /\
    employees (session (snd (main
      {| session := {| employees := None; serial := 1; txn_state := NoTxn; closed := true;
                       faults := []; calls := []; stdout := EmptyString |};
         os_environ := [("DB_HOST", "db"); ("DB_PORT", "5432"); ("DB_NAME", "hr");
                        ("DB_USER", "ann"); ("DB_PASSWORD", "secret")];
         stdin := [" Ann "; "Ops"]; connect_fault := None; connections := [] |})))
    = Some (rows_of None ++ [ {| emp_id := 1; emp_name := name;
                                 emp_department := department |} ])%list.
Proof.
  destruct (main_adds_one_row_or_none
      {| session := {| employees := None; serial := 1; txn_state := NoTxn; closed := true;
                       faults := []; calls := []; stdout := EmptyString |};
         os_environ := [("DB_HOST", "db"); ("DB_PORT", "5432"); ("DB_NAME", "hr");
                        ("DB_USER", "ann"); ("DB_PASSWORD", "secret")];
         stdin := [" Ann "; "Ops"]; connect_fault := None; connections := [] |}) as [H _].
  apply H. reflexivity.
Defined.

End EmployeeScript.

(** ** Q3: reading the response back, and requests in sequence *)

Section TimeServiceSequence.
Import Py Q3.

(** X16.  From the year 1000 on, the two strings of a response determine
    the instant to the second: reading [current_date] back gives its year,
    month and day, and reading [current_time] back gives its hour, minute
    and second; nothing but the microseconds is lost. *)
Theorem get_time_round_trip (w : world) (t : datetime) :
  clock w (ticks w) = Instant t -> valid_datetime t = true -> 1000 <= year t ->
  exists date time,
    data (fst (wsgi_app app get_time w)) = snapshot date time /\
    parse_date date = Some (year t, month t, day t) /\
    parse_time time = Some (hour t, minute t, second t).
Proof.
  intros H Hv Hc. rewrite wsgi_app_get_time, H.
  exists (strftime t "%Y-%m-%d"), (strftime t "%H:%M:%S").
  split; [reflexivity|].
  apply valid_datetime_bounds in Hv.
  destruct Hv as (Hy & Hm & Hd & Hh & Hmi & Hs).
  pose proof (days_in_month_le (year t) (month t)) as Hdim.
  split.
  - rewrite strftime_date_parts, decimal_four_digits, !zero_padded_2 by lia.
    unfold parse_date. cbn [append].
    now rewrite four_digits_padded, !two_digits_padded by lia.
  - rewrite strftime_time_parts, !zero_padded_2 by lia.
    unfold parse_time. cbn [append].
    now rewrite !two_digits_padded by lia.
Qed.

Lemma get_time_round_trip_witness :
  exists date time,
    data (fst (wsgi_app app get_time
       {| clock := clock_over_midnight; ticks := 0; static_files := [] |}))
    = snapshot date time /\
    parse_date date = Some (2024, 3, 1) /\
    parse_time time = Some (23, 59, 59).
Proof.
  apply (get_time_round_trip
           {| clock := clock_over_midnight; ticks := 0; static_files := [] |}
           (Build_datetime 2024 3 1 23 59 59 999999));
    [reflexivity | reflexivity | simpl; lia].
Defined.

(** The response to [GET /time] for one read of the clock. *)
Lemma serve_get_time_step (n : nat) (w : world) :
  serve app (repeat get_time (S n)) w
  = (fst (wsgi_app app get_time w) :: fst (serve app (repeat get_time n) (tick w)),
     snd (serve app (repeat get_time n) (tick w))).
Proof.
  cbn [repeat serve]. rewrite wsgi_app_get_time.
  destruct (clock w (ticks w));
    destruct (serve app (repeat get_time n) (tick w)); reflexivity.
Qed.

(** X17.  Nothing is kept from one request to the next: [n] requests
    [GET /time] in a row read the clock [n] times, and the [k]-th response
    is made from the [k]-th of these reads alone, a snapshot of that instant
    or the generic 500 if that read failed. *)
Theorem serve_reads_clock_each_time (n : nat) (w : world) :
  ticks (snd (serve app (repeat get_time n) w)) = (ticks w + n)%nat /\
  List.length (fst (serve app (repeat get_time n) w)) = n /\
  forall k, (k < n)%nat ->
    nth_error (fst (serve app (repeat get_time n) w)) k
    = Some (match clock w (ticks w + k) with
            | Instant t =>
                ok_json (snapshot (strftime t "%Y-%m-%d") (strftime t "%H:%M:%S"))
            | ClockFailure _ _ => get_response InternalServerError
            end).
Proof.
  revert w; induction n as [|n IH]; intros w.
  - simpl. repeat split; [lia | intros k Hk; lia].
  - rewrite serve_get_time_step. cbn [fst snd].
    destruct (IH (tick w)) as (Ht & Hl & Hk).
    cbn [tick ticks clock] in Ht, Hk.
    split; [rewrite Ht; lia|]. split; [simpl; now rewrite Hl|].
    intros [|k] Hlt.
    + cbn [nth_error]. rewrite wsgi_app_get_time, Nat.add_0_r.
      now destruct (clock w (ticks w)).
    + cbn [nth_error]. rewrite Hk by lia.
      now replace (S (ticks w) + k)%nat with (ticks w + S k)%nat by lia.
Qed.

Lemma serve_reads_clock_each_time_witness :
  nth_error (fst (serve app (repeat get_time 2)
     {| clock := clock_over_midnight; ticks := 0; static_files := [] |})) 1
  = Some (ok_json (snapshot "2024-03-02" "00:00:00")).
Proof.
  destruct (serve_reads_clock_each_time 2
     {| clock := clock_over_midnight; ticks := 0; static_files := [] |}) as (_ & _ & H).
  apply (H 1%nat). lia.
Defined.

End TimeServiceSequence.
